(** * Electrification Forecasting Dashboard (kubeflow2-app.py)

    A shallow embedding of the Streamlit script: the data loader, the
    sidebar controls, the per-country filter, the pivot behind the heat
    map, the forecast year index, the planning message, and the script
    itself as a run that emits page elements and may stop or raise. *)

From Stdlib Require Import Ascii QArith Qabs Qround Lqa.
From stdpp Require Import base tactics option list list_numbers sorting
  strings numbers pretty.

Open Scope Z_scope.

(** ** Python strings: the ASCII part of the case mappings *)

Module Str.

Definition is_upper (c : ascii) : bool :=
  let n := N_of_ascii c in ((65 <=? n) && (n <=? 90))%N.

Definition is_lower (c : ascii) : bool :=
  let n := N_of_ascii c in ((97 <=? n) && (n <=? 122))%N.

Definition lower_char (c : ascii) : ascii :=
  if is_upper c then ascii_of_N (N_of_ascii c + 32) else c.

Definition upper_char (c : ascii) : ascii :=
  if is_lower c then ascii_of_N (N_of_ascii c - 32) else c.

(** [str.lower()] on ASCII text *)
Fixpoint lower (s : string) : string :=
  match s with
  | EmptyString => EmptyString
  | String c s' => String (lower_char c) (lower s')
  end.

(** [str.replace(a, b)] for one-character [a] and [b] *)
Fixpoint replace (a b : ascii) (s : string) : string :=
  match s with
  | EmptyString => EmptyString
  | String c s' => String (if Ascii.eqb c a then b else c) (replace a b s')
  end.

(** [str.title()]: a letter that follows a non-letter is uppercased, a
    letter that follows a letter is lowercased. *)
Fixpoint title_go (previous_is_cased : bool) (s : string) : string :=
  match s with
  | EmptyString => EmptyString
  | String c s' =>
      if is_lower c then
        String (if previous_is_cased then c else upper_char c) (title_go true s')
      else if is_upper c then
        String (if previous_is_cased then lower_char c else c) (title_go true s')
      else String c (title_go false s')
  end.

Definition title (s : string) : string := title_go false s.

(** No uppercase ASCII letter occurs in [s]. *)
Fixpoint no_upper (s : string) : bool :=
  match s with
  | EmptyString => true
  | String c s' => negb (is_upper c) && no_upper s'
  end.

(** Every byte of [s] is an ASCII character. *)
Fixpoint is_ascii (s : string) : bool :=
  match s with
  | EmptyString => true
  | String c s' => (N_of_ascii c <? 128)%N && is_ascii s'
  end.

End Str.

(** The interpreter's [str.lower()]. It is Unicode-aware; on ASCII text
    it is [Str.lower], and what it does to other text is left to it. *)
Class Python := {
  str_lower : string → string;
  str_lower_ascii : ∀ s, Str.is_ascii s = true → str_lower s = Str.lower s
}.

(** ** Exceptions and fallible expressions *)

Inductive exn :=
| KeyError (key : string)
| NameError (name : string)
| IndexError
| TypeError
| AttributeError
| ValueError
| LibraryError (origin : string)
| Unmodelled.

Inductive result (A : Type) :=
| Ok (a : A)
| Err (e : exn).
Arguments Ok {A} a.
Arguments Err {A} e.

Global Instance result_ret : MRet result := λ A a, Ok a.
Global Instance result_bind : MBind result := λ A B k r,
  match r with
  | Ok a => k a
  | Err e => Err e
  end.
Global Instance result_fmap : FMap result := λ A B f r,
  match r with
  | Ok a => Ok (f a)
  | Err e => Err e
  end.

(** ** Floating-point cells

    A numeric cell is a finite value, taken as the rational it denotes,
    or NaN (a blank in the file). *)

Inductive float :=
| Finite (q : Q)
| NaN.

(** [a < b] on floats: every comparison with NaN is false. *)
Definition float_lt (a b : float) : bool :=
  match a, b with
  | Finite x, Finite y => if Qlt_le_dec x y then true else false
  | _, _ => false
  end.

Definition isnan (a : float) : bool :=
  match a with NaN => true | Finite _ => false end.

(** A value the estimator returns: besides the above, a float64 can be
    an infinity or the negative zero. *)
Inductive float64 :=
| Value (v : float)
| Infinity (negative : bool)
| NegativeZero.
Coercion Value : float >-> float64.

(** [v < t] for a finite threshold [t]. *)
Definition below (v : float64) (t : Q) : bool :=
  match v with
  | Value x => float_lt x (Finite t)
  | Infinity negative => negative
  | NegativeZero => if Qlt_le_dec 0 t then true else false
  end.

(** ** The dataset *)

Inductive access_type :=
| electricity_access
| rural_access
| urban_access.

Definition access_name (a : access_type) : string :=
  match a with
  | electricity_access => "electricity_access"
  | rural_access => "rural_access"
  | urban_access => "urban_access"
  end.

(** A cell of the country column: text, an integer when the parser
    typed the whole column as integers, or a blank (NaN). *)
Inductive place :=
| Name (s : string)
| Code (z : Z)
| Blank.

Global Instance place_eq_dec : EqDecision place.
Proof. solve_decision. Defined.

(** [str(x)] of such a cell. *)
Definition show (x : place) : string :=
  match x with
  | Name s => s
  | Code z => pretty z
  | Blank => "nan"
  end.

(** One line of the file: the cells under the columns the dashboard reads. *)
Record row := Row {
  country : place;
  year : Z;
  access : access_type → float
}.

(** How the parser typed the year column: int64, or float64 when a year
    is written with a decimal point or left blank. The years themselves
    are kept as whole numbers: of a float64 column only the type is
    used. *)
Inductive dtype :=
| integer
| floating.

(** The table: its header as currently spelled, its lines in file order,
    and the type of its year column. A column is reachable only under a
    name the header holds. *)
Record DataFrame := Table {
  columns : list string;
  rows : list row;
  year_dtype : dtype
}.

(** A table whose years are integers. *)
Definition Frame (columns : list string) (rows : list row) : DataFrame :=
  Table columns rows integer.

(** [df[name]] fails with [KeyError] when the header lacks [name]. *)
Definition getitem {A} (df : DataFrame) (name : string) (cell : row → A)
  : result (list A) :=
  if decide (name ∈ columns df) then Ok (cell <$> rows df)
  else Err (KeyError name).

(** ** Data loading (lines 32-36) *)

Section loader.
Context {File : Type} `{Python}.
Variable read_csv : File → result DataFrame.

Definition load_data (file : File) : result DataFrame :=
  df ← read_csv file;
  mret (Table (str_lower <$> columns df) (rows df) (year_dtype df)).
End loader.

(** ** Sidebar controls (lines 52-67) *)

(** [Series.unique()]: distinct values in order of first appearance. *)
Fixpoint unique_go `{EqDecision A} (seen l : list A) : list A :=
  match l with
  | [] => []
  | x :: l' =>
      if decide (x ∈ seen) then unique_go seen l'
      else x :: unique_go (x :: seen) l'
  end.

Definition unique `{EqDecision A} (l : list A) : list A := unique_go [] l.

Definition names (l : list place) : list string :=
  omap (λ x, if x is Name s then Some s else None) l.

Definition codes (l : list place) : list Z :=
  omap (λ x, if x is Code z then Some z else None) l.

(** [sorted(...)] on the values of a column. Texts are ordered by their
    characters, integers by value, and a single value needs no
    comparison; comparing a text with a number or with NaN raises
    [TypeError]. Integers next to a blank are a float column, whose
    order around NaN is not modelled. *)
Definition sorted (l : list place) : result (list place) :=
  if decide (length (names l) = length l) then
    Ok (Name <$> merge_sort String.le (names l))
  else if decide (length (codes l) = length l) then
    Ok (Code <$> merge_sort Z.le (codes l))
  else match l with
       | [x] => Ok [x]
       | _ => if decide (names l = []) then Err Unmodelled else Err TypeError
       end.

(** The header holds the name country once. *)
Definition one_country_column (df : DataFrame) : Prop :=
  length (filter ("country" =.) (columns df)) = 1%nat.

(** Line 54. With two columns of that name [df["country"]] is a table,
    which has no [unique]. *)
Definition countries (df : DataFrame) : result (list place) :=
  col ← getitem df "country" country;
  if decide (one_country_column df)
  then sorted (unique col)
  else Err AttributeError.

(** [st.selectbox]: the option at the position the user picked, the first
    option when the pick is out of reach, [None] when there is nothing to
    pick from. *)
Definition selectbox {A} (options : list A) (pick : nat) : option A :=
  match options !! pick with
  | Some x => Some x
  | None => head options
  end.

(** [st.slider]: the position the user left it at when that lies between
    the bounds, its initial [value] otherwise. *)
Definition slider_value (min_value max_value value pick : Z) : Z :=
  if decide (min_value ≤ pick ≤ max_value) then pick else value.

Definition slider (min_value max_value pick : Z) : Z :=
  slider_value min_value max_value 5 pick.

Definition access_types : list access_type :=
  [electricity_access; rural_access; urban_access].

(** ** Filtering (line 72) *)

Definition year_le (a b : row) : Prop := year a ≤ year b.

Global Instance year_le_dec : RelDecision year_le.
Proof. intros a b. unfold year_le. apply _. Defined.

(** [DataFrame.sort_values("year")]: ascending years. Rows with equal
    years stay in the order they had; pandas does not promise that, and
    no property below relies on it. *)
Fixpoint insert_by_year (r : row) (l : list row) : list row :=
  match l with
  | [] => [r]
  | x :: l' =>
      if decide (year_le r x) then r :: l else x :: insert_by_year r l'
  end.

Definition sort_by_year (l : list row) : list row :=
  foldr insert_by_year [] l.

Definition sort_values_year (df : DataFrame) : result DataFrame :=
  if decide ("year" ∈ columns df)
  then Ok (Table (columns df) (sort_by_year (rows df)) (year_dtype df))
  else Err (KeyError "year").

(** [df["country"] == selected_country], row by row. With nothing
    selected the comparison is against [None] and is false everywhere;
    a blank cell is NaN, which equals nothing, not even a selected NaN. *)
Definition is_selected (selected_country : option place) (r : row) : Prop :=
  Some (country r) = selected_country ∧ country r ≠ Blank.

Global Instance is_selected_dec sel r : Decision (is_selected sel r).
Proof. unfold is_selected. apply _. Defined.

Definition country_df (df : DataFrame) (selected_country : option place)
  : result DataFrame :=
  _ ← getitem df "country" country;
  sort_values_year
    (Table (columns df) (filter (is_selected selected_country) (rows df))
       (year_dtype df)).

(** ** Heat map matrix (lines 104-108) *)

Definition Qsum (l : list Q) : Q := foldr Qplus 0%Q l.

(** The mean of a group, NaN cells skipped; NaN when nothing is left.
    pandas computes it in float64; here it is the exact quotient, so
    only what does not depend on rounding is proved of it: which cells
    are blank, and the value of a group that holds a single value. *)
Definition finite_values (l : list float) : list Q :=
  omap (λ v, match v with Finite q => Some q | NaN => None end) l.

Definition mean (l : list float) : float :=
  match finite_values l with
  | [] => NaN
  | qs => Finite (Qsum qs / inject_Z (Z.of_nat (length qs)))
  end.

Record pivot := Pivot {
  index : list place;           (* row labels: countries *)
  pcolumns : list Z;            (* column labels: years *)
  values : list (list float)    (* one list per row label *)
}.

(** The order of group keys: integers by value, then texts by their
    characters. *)
Definition place_le (a b : place) : Prop :=
  match a, b with
  | Code x, Code y => x ≤ y
  | Code _, _ => True
  | Name x, Name y => String.le x y
  | Name _, Blank => True
  | Blank, Blank => True
  | _, _ => False
  end.

Global Instance place_le_dec : RelDecision place_le.
Proof. intros [] []; simpl; apply _. Defined.

Definition key_le (a b : place * Z) : Prop :=
  place_le a.1 b.1 ∧ (a.1 = b.1 → a.2 ≤ b.2).

Global Instance key_le_dec : RelDecision key_le.
Proof. intros a b. unfold key_le. apply _. Defined.

(** The metric cells of the rows of one (country, year) group. *)
Definition group (a : access_type) (rs : list row) (k : place * Z)
  : list float :=
  (λ r, access r a) <$> filter (λ r, (country r, year r) = k) rs.

(** [groupby(["country", "year"])[a].mean()] followed by
    [dropna(how="all")]: one entry per (country, year) pair of the table,
    rows with a blank country left out, pairs in ascending order, groups
    whose mean is NaN dropped. *)
Definition group_means (a : access_type) (rs : list row)
  : list (place * Z * float) :=
  let keys :=
    merge_sort key_le
      (unique ((λ r, (country r, year r))
                 <$> filter (λ r, country r ≠ Blank) rs)) in
  filter (λ kv, isnan kv.2 = false)
         ((λ k, (k, mean (group a rs k))) <$> keys).

(** One cell of the spread table: the group's mean, NaN when the group
    is missing. *)
Definition cell (agged : list (place * Z * float)) (c : place) (y : Z)
  : float :=
  match list_find (λ kv, kv.1 = (c, y)) agged with
  | Some (_, kv) => kv.2
  | None => NaN
  end.

(** [unstack] of the year level, columns sorted. *)
Definition unstack (agged : list (place * Z * float)) : pivot :=
  let idx := unique ((λ kv, kv.1.1) <$> agged) in
  let cols := merge_sort Z.le (unique ((λ kv, kv.1.2) <$> agged)) in
  Pivot idx cols ((λ c, cell agged c <$> cols) <$> idx).

(** [df.pivot_table(index="country", columns="year", values=a)], with the
    default mean aggregation. *)
Definition pivot_table (df : DataFrame) (a : access_type) : result pivot :=
  if decide (access_name a ∈ columns df) then
    if decide ("country" ∈ columns df) then
      if decide ("year" ∈ columns df) then
        Ok (unstack (group_means a (rows df)))
      else Err (KeyError "year")
    else Err (KeyError "country")
  else Err (KeyError (access_name a)).

(** [pivot.loc[c, y]], when both labels exist. *)
Definition loc (p : pivot) (c : place) (y : Z) : option float :=
  '(i, _) ← list_find (c =.) (index p);
  '(j, _) ← list_find (y =.) (pcolumns p);
  r ← values p !! i;
  r !! j.

(** ** Forecasting (lines 133-147) *)

Definition Series : Type := list (Z * float).

(** [country_df.set_index("year")[access_type]] *)
Definition series (cdf : DataFrame) (a : access_type) : result Series :=
  if decide ("year" ∈ columns cdf)
  then getitem cdf (access_name a) (λ r, (year r, access r a))
  else Err (KeyError "year").

(** The delegated estimator: [ARIMA(series, order).fit()], the fitted
    model's [forecast(steps=n)] and its [summary()]. The fit and the
    forecast may raise; how many values a forecast holds is the
    library's business. *)
Class ForecastEngine := {
  model_fit : Type;
  ARIMA_fit : Series → nat * nat * nat → result model_fit;
  forecast : model_fit → Z → result (list float64);
  summary : model_fit → string
}.

(** [series.index.max()]; an empty index has no maximum (pandas answers
    NaN, which [range] rejects). *)
Definition index_max (s : Series) : result Z :=
  match s.*1 with
  | [] => Err TypeError
  | y :: ys => Ok (foldr Z.max y ys)
  end.

(** [range(start, stop)] *)
Definition py_range (start stop : Z) : list Z := seqZ start (stop - start).

(** numpy's int64 arithmetic wraps around. *)
Definition wrap64 (z : Z) : Z := (z + 2 ^ 63) `mod` 2 ^ 64 - 2 ^ 63.

(** Lines 144-147. The maximum of an int64 index is a numpy int64, and
    so are the two sums; the maximum of a float64 index is a float, which
    [range] rejects. *)
Definition forecast_year_index (index_dtype : dtype) (s : Series)
  (forecast_years : Z) : result (list Z) :=
  m ← index_max s;
  match index_dtype with
  | floating => Err TypeError
  | integer =>
      let start := wrap64 (m + 1) in
      mret (py_range start (wrap64 (start + forecast_years)))
  end.

(** [x.iloc[-1]] *)
Definition iloc_last {A} (l : list A) : result A :=
  match last l with
  | Some x => Ok x
  | None => Err IndexError
  end.

(** ** Page elements *)

Record line := Line {
  xs : list Z;
  ys : list float64;
  label : option string;
  linestyle : string;
  marker : option string
}.

Inductive figure :=
| LineChart (lines : list line) (xlabel ylabel title : string) (legend : bool)
| HeatMap (data : pivot) (cmap title : string).

Inductive element :=
| PageConfig (page_title layout : string)
| Title (body : string)
| Markdown (body : string)
| Header (body : string)
| SidebarHeader (body : string)
| FileUploader (label : string)
| Selectbox (label : string) (options : list string)
| Slider (label : string) (min_value max_value value : Z)
| Warning (body : string)
| Error (body : string)
| Success (body : string)
| Text (body : string)
| Caption (body : string)
| Pyplot (fig : figure).

(** [ax.plot(x, y, ...)] rejects coordinates of different lengths. *)
Definition ax_plot (x : list Z) (y : list float64) (label : option string)
  (linestyle : string) (marker : option string) : result line :=
  if decide (length x = length y) then Ok (Line x y label linestyle marker)
  else Err (LibraryError "matplotlib").

(** ** Planning insight (lines 182-193) *)

(** Nearest integer, ties to even. *)
Definition round_half_even (x : Q) : Z :=
  let f := Qfloor x in
  match (x - inject_Z f ?= 1 # 2)%Q with
  | Lt => f
  | Gt => f + 1
  | Eq => if Z.even f then f else f + 1
  end.

(** The number of tenths shown by [format(v, ".1f")], sign apart. *)
Definition tenths (q : Q) : Z := round_half_even (Qabs q * 10).

(** [f"{v:.1f}"] *)
Definition format_1f (v : float) : string :=
  match v with
  | NaN => "nan"
  | Finite q =>
      let t := tenths q in
      (if Qlt_le_dec q 0 then "-" else "")
        +:+ pretty (t `div` 10) +:+ "." +:+ pretty (t `mod` 10)
  end.

Definition format_float64 (v : float64) : string :=
  match v with
  | Value x => format_1f x
  | Infinity negative => if negative then "-inf" else "inf"
  | NegativeZero => "-0.0"
  end.

(** [f"{selected_country}"] *)
Definition str (selected_country : option place) : string :=
  match selected_country with
  | Some x => show x
  | None => "None"
  end.

Definition planning_insight (selected_country : option place)
  (future_value : float64) : element :=
  if below future_value 90 then
    Warning (" " +:+ str selected_country
      +:+ " is projected to remain below universal access ("
      +:+ format_float64 future_value
      +:+ "%). Accelerated investment is recommended.")
  else
    Success (" " +:+ str selected_country
      +:+ " is on track to approach universal electricity access.").

(** Lines 182-193 as one step from the forecast to the banner. *)
Definition recommendation (selected_country : option place)
  (s : Series) (fc : list float64) : result element :=
  latest_value ← iloc_last s.*2;
  future_value ← iloc_last fc;
  mret (planning_insight selected_country future_value).

(** ** The script as a run

    A run emits page elements in order and ends by reaching the last
    line, by [st.stop()], or by an uncaught exception. *)

Inductive halt :=
| Stopped
| Raised (e : exn).

Inductive outcome (A : Type) :=
| Continue (a : A)
| Halted (h : halt).
Arguments Continue {A} a.
Arguments Halted {A} h.

Definition script (A : Type) : Type := list element * outcome A.

Global Instance script_ret : MRet script := λ A a, ([], Continue a).
Global Instance script_bind : MBind script := λ A B k m,
  match m with
  | (before, Continue a) => let '(after, o) := k a in (before ++ after, o)
  | (before, Halted h) => (before, Halted h)
  end.

Definition emit (e : element) : script () := ([e], Continue ()).
Definition st_stop {A} : script A := ([], Halted Stopped).
Definition raise {A} (e : exn) : script A := ([], Halted (Raised e)).
Definition lift {A} (r : result A) : script A :=
  match r with
  | Ok a => mret a
  | Err e => raise e
  end.

Definition page (m : script ()) : list element := m.1.
Definition ending (m : script ()) : halt + () :=
  match m.2 with
  | Continue _ => inr ()
  | Halted h => inl h
  end.

(** The names bound by the import statements (lines 1-5). *)
Definition imports : list string := ["st"; "pd"; "np"; "ARIMA"].

Definition nl : string := String (ascii_of_nat 10) "".
Definition text (lines : list string) : string := String.concat nl lines.

Definition description : string := text [
  "";
  "This dashboard analyzes historical electricity access data and predicts future";
  "electrification needs using time-series models.";
  "";
  "**Project:** Kubeflow – AI-Driven Electrification Planning  ";
  "**Audience:** Policymakers, researchers, energy planners";
  ""].

Definition interpretation : string := text [
  "";
  "**Interpretation:**  ";
  "This plot shows how electricity access has evolved over time.";
  "Upward trends indicate infrastructure expansion, while flat regions";
  "suggest stagnation or policy constraints.";
  ""].

Definition heat_map_insight : string := text [
  "";
  "**Heat Map Insight:**  ";
  "Darker regions indicate higher electricity access. Persistent light areas";
  "highlight regions requiring urgent electrification investment.";
  ""].

Definition forecast_explanation : string := text [
  "";
  "**Forecast Explanation:**  ";
  "The dashed line represents projected electricity access assuming historical";
  "patterns continue. Forecast uncertainty increases further into the future,";
  "so results should guide planning—not replace policy judgment.";
  ""].

Definition suggested_actions : string := text [
  "";
  "**Suggested Actions:**";
  "- Expand rural grid connections or mini-grids";
  "- Strengthen long-term infrastructure financing";
  "- Monitor population growth against access gains";
  ""].

Record session (File : Type) := Session {
  uploaded_file : option File;   (* what the uploader holds *)
  country_pick : nat;            (* position picked in the country box *)
  access_pick : nat;             (* position picked in the access box *)
  horizon_pick : Z               (* where the slider was dragged *)
}.
Arguments Session {File}.
Arguments uploaded_file {File}.
Arguments country_pick {File}.
Arguments access_pick {File}.
Arguments horizon_pick {File}.

Section dashboard.
Context {File : Type} `{Python} `{ForecastEngine}.
Variable read_csv : File → result DataFrame.
(** The module's global names when the script body starts. *)
Variable globals : list string.

(** Reading a global name. *)
Definition name (n : string) : script () :=
  if decide (n ∈ globals) then mret () else raise (NameError n).

Definition st (e : element) : script () := name "st";; emit e.

(** Lines 77-97. *)
Definition trends (cdf : DataFrame) (selected_country : option place)
  (a : access_type) : script () :=
  st (Header "Historical Electrification Trends");;
  name "plt";;
  x ← lift (getitem cdf "year" year);
  y ← lift (getitem cdf (access_name a) (λ r, access r a));
  l ← lift (ax_plot x (Value <$> y) None "-" (Some "o"));
  st (Pyplot (LineChart [l] "Year" "Access (%)"
        (str selected_country +:+ " – "
           +:+ Str.title (Str.replace "_" " " (access_name a)))
        false));;
  st (Markdown interpretation).

(** Lines 102-126. [sns.heatmap] finds no colour range in an empty
    matrix and raises [ValueError]. *)
Definition heat_map (df : DataFrame) (a : access_type) : script () :=
  st (Header " Electrification Heat Map");;
  p ← lift (pivot_table df a);
  name "plt";;
  name "sns";;
  (if decide (index p = []) then raise ValueError else mret ());;
  st (Pyplot (HeatMap p "YlGnBu" "Electricity Access Heat Map"));;
  st (Markdown heat_map_insight).

(** Lines 131-209. *)
Definition forecasting (cdf : DataFrame) (selected_country : option place)
  (a : access_type) (forecast_years : Z) : script () :=
  st (Header " Forecasting Future Electrification");;
  s ← lift (series cdf a);
  if decide (length s < 6)%nat then
    st (Error "Not enough data points for forecasting.");;
    st_stop
  else
    name "ARIMA";;
    fit ← lift (ARIMA_fit s (1, 1, 1)%nat);
    fc ← lift (forecast fit forecast_years);
    forecast_year_index ←
      lift (forecast_year_index (year_dtype cdf) s forecast_years);
    name "plt";;
    historical ←
      lift (ax_plot s.*1 (Value <$> s.*2) (Some "Historical") "-" None);
    projected ← lift (ax_plot forecast_year_index fc (Some "Forecast") "--" None);
    st (Pyplot (LineChart [historical; projected] "Year" "Access (%)"
          (str selected_country +:+ " – Electrification Forecast") true));;
    st (Markdown forecast_explanation);;
    st (Header " Model Summary");;
    st (Text (summary fit));;
    st (Header "Planning Insights");;
    banner ← lift (recommendation selected_country s fc);
    st banner;;
    st (Markdown suggested_actions);;
    st (Caption
      "Kubeflow Electrification Project | Streamlit Dashboard | AI-assisted planning").

(** The whole script, top to bottom. *)
Definition run_with (u : session File) : script () :=
  st (PageConfig "Electrification Forecast Dashboard" "wide");;
  st (Title "Electrification Forecasting Dashboard");;
  st (Markdown description);;
  st (FileUploader "Upload electrification dataset (CSV)");;
  match uploaded_file u with
  | None =>
      st (Warning "Please upload a CSV file to continue.");;
      st_stop
  | Some file =>
      name "pd";;
      df ← lift (load_data read_csv file);
      st (SidebarHeader "Controls");;
      countries ← lift (countries df);
      st (Selectbox "Select Country" (show <$> countries));;
      let selected_country := selectbox countries (country_pick u) in
      st (Selectbox "Electricity Access Type" (access_name <$> access_types));;
      let access_type :=
        default electricity_access (selectbox access_types (access_pick u)) in
      st (Slider "Forecast Horizon (Years)" 3 15 5);;
      let forecast_years := slider 3 15 (horizon_pick u) in
      country_df ← lift (country_df df selected_country);
      trends country_df selected_country access_type;;
      heat_map df access_type;;
      forecasting country_df selected_country access_type forecast_years
  end.
End dashboard.

(** The script under the names it really has. *)
Definition run {File : Type} `{Python} `{ForecastEngine}
  (read_csv : File → result DataFrame) (u : session File) : script () :=
  run_with read_csv imports u.

(** ** Sample sessions *)

Module Sample.

(** A line that only fills the overall access column. *)
Definition observation (c : string) (y : Z) (v : float) : row :=
  Row (Name c) y (λ a, match a with electricity_access => v | _ => NaN end).

Definition header : list string := ["Country"; "Year"; "Electricity_Access"].
Definition loaded_header : list string :=
  ["country"; "year"; "electricity_access"].

(** Kenya 2015-2022, rising from 55 to 75. *)
Definition kenya_rows : list row :=
  [observation "Kenya" 2015 (Finite 55); observation "Kenya" 2016 (Finite 58);
   observation "Kenya" 2017 (Finite 61); observation "Kenya" 2018 (Finite 64);
   observation "Kenya" 2019 (Finite 67); observation "Kenya" 2020 (Finite 70);
   observation "Kenya" 2021 (Finite 73); observation "Kenya" 2022 (Finite 75)].

(** Out of year order, two countries, one repeated (country, year)
    pair and two blanks. *)
Definition mixed_rows : list row :=
  [observation "Kenya" 2016 (Finite 60); observation "Ghana" 2015 (Finite 70);
   observation "Kenya" 2015 (Finite 55); observation "Kenya" 2015 (Finite 57);
   observation "Ghana" 2017 NaN; observation "Chad" 2016 NaN].

(** Four years of one country. *)
Definition short_rows : list row :=
  [observation "Kenya" 2019 (Finite 67); observation "Kenya" 2020 (Finite 70);
   observation "Kenya" 2021 (Finite 73); observation "Kenya" 2022 (Finite 75)].

Definition kenya : DataFrame := Frame loaded_header kenya_rows.
Definition mixed : DataFrame := Frame loaded_header mixed_rows.

(** Files that parse to the table they hold. *)
Definition read_csv (file : DataFrame) : result DataFrame := Ok file.

(** A stand-in estimator: every projected value repeats the last
    observed one. *)
Definition persistence : ForecastEngine := {|
  model_fit := float;
  ARIMA_fit s _ := iloc_last s.*2;
  forecast m n := Ok (replicate (Z.to_nat n) (Value m));
  summary _ := "persistence"
|}.

(** An interpreter that lowercases the ASCII letters and nothing else. *)
Definition ascii_only : Python := {|
  str_lower := Str.lower;
  str_lower_ascii s _ := eq_refl
|}.

End Sample.

(** * Properties *)

(** ** Strings *)

Lemma is_upper_lower_char c : Str.is_upper (Str.lower_char c) = false.
Proof.
  destruct c as [[] [] [] [] [] [] [] []]; vm_compute; reflexivity.
Qed.

Lemma no_upper_lower s : Str.no_upper (Str.lower s) = true.
Proof.
  induction s as [|c s IH]; simpl; [done|].
  by rewrite is_upper_lower_char, IH.
Qed.

Lemma lower_no_upper s : Str.no_upper s = true → Str.lower s = s.
Proof.
  induction s as [|c s IH]; simpl; [done|].
  intros [Hc Hs]%andb_true_iff. rewrite (IH Hs).
  unfold Str.lower_char. by destruct (Str.is_upper c).
Qed.

Lemma lower_idempotent s : Str.lower (Str.lower s) = Str.lower s.
Proof. apply lower_no_upper, no_upper_lower. Qed.

Example lower_demo :
  Str.lower "Electricity_Access – %" = "electricity_access – %".
Proof. reflexivity. Qed.

Example title_demo :
  Str.title (Str.replace "_" " " "electricity_access") = "Electricity Access".
Proof. reflexivity. Qed.

(** ** [unique] and the two sorts *)

Section unique.
Context `{EqDecision A}.
Implicit Types l seen : list A.

Lemma elem_of_unique_go seen l x :
  x ∈ unique_go seen l ↔ x ∈ l ∧ x ∉ seen.
Proof.
  revert seen. induction l as [|y l IH]; intros seen; simpl.
  - rewrite elem_of_nil. tauto.
  - destruct (decide (y ∈ seen)) as [Hy|Hy].
    + rewrite IH, elem_of_cons. split; [tauto|].
      intros [[->|?] ?]; tauto.
    + rewrite !elem_of_cons, IH, not_elem_of_cons.
      destruct (decide (x = y)) as [->|]; tauto.
Qed.

Lemma NoDup_unique_go seen l : NoDup (unique_go seen l).
Proof.
  revert seen. induction l as [|y l IH]; intros seen; simpl.
  - constructor.
  - destruct (decide (y ∈ seen)); [apply IH|].
    constructor; [|apply IH].
    rewrite elem_of_unique_go, not_elem_of_cons. tauto.
Qed.

Lemma elem_of_unique l x : x ∈ unique l ↔ x ∈ l.
Proof. unfold unique. rewrite elem_of_unique_go, elem_of_nil. tauto. Qed.

Lemma NoDup_unique l : NoDup (unique l).
Proof. apply NoDup_unique_go. Qed.
End unique.

Global Instance place_le_trans : Transitive place_le.
Proof.
  intros [x|x|] [y|y|] [z|z|]; simpl; try done; [apply transitivity|lia].
Qed.

Global Instance place_le_antisym : AntiSymm (=) place_le.
Proof.
  intros [x|x|] [y|y|]; simpl; try done.
  - intros Hxy Hyx. f_equal. by apply (anti_symm String.le).
  - intros Hxy Hyx. f_equal. lia.
Qed.

Global Instance place_le_total : Total place_le.
Proof.
  intros [x|x|] [y|y|]; simpl; try tauto.
  - apply (total String.le).
  - lia.
Qed.

Lemma elem_of_names l s : s ∈ names l ↔ Name s ∈ l.
Proof.
  unfold names. rewrite list_elem_of_omap. split.
  - intros ([] & Hx & [= <-]). done.
  - intros Hs. by exists (Name s).
Qed.

Lemma elem_of_codes l z : z ∈ codes l ↔ Code z ∈ l.
Proof.
  unfold codes. rewrite list_elem_of_omap. split.
  - intros ([] & Hx & [= <-]). done.
  - intros Hz. by exists (Code z).
Qed.

Lemma names_length l : (length (names l) ≤ length l)%nat.
Proof.
  induction l as [|[] l IH]; simpl; [done|..];
    fold (names l); simpl; lia.
Qed.

Lemma names_all l :
  Forall (λ x, ∃ s, x = Name s) l → Name <$> names l = l.
Proof.
  induction 1 as [|x l [s ->] _ IH]; [done|].
  change (names (Name s :: l)) with (s :: names l). by rewrite fmap_cons, IH.
Qed.

Lemma codes_all l :
  Forall (λ x, ∃ z, x = Code z) l → Code <$> codes l = l.
Proof.
  induction 1 as [|x l [z ->] _ IH]; [done|].
  change (codes (Code z :: l)) with (z :: codes l). by rewrite fmap_cons, IH.
Qed.

Lemma sorted_names l :
  Forall (λ x, ∃ s, x = Name s) l →
  sorted l = Ok (Name <$> merge_sort String.le (names l)).
Proof.
  intros Hl. unfold sorted. rewrite decide_True; [done|].
  rewrite <- (names_all l Hl) at 2. by rewrite length_fmap.
Qed.

Lemma sorted_codes l :
  Forall (λ x, ∃ z, x = Code z) l →
  sorted l = Ok (Code <$> merge_sort Z.le (codes l)).
Proof.
  intros Hl. unfold sorted.
  destruct (decide (length (names l) = length l)) as [Hn|_].
  - destruct Hl as [|x l [z ->] _]; [done|].
    change (names (Code z :: l)) with (names l) in Hn. simpl in Hn.
    pose proof (names_length l). lia.
  - rewrite decide_True; [done|].
    rewrite <- (codes_all l Hl) at 2. by rewrite length_fmap.
Qed.

Global Instance year_le_trans : Transitive year_le.
Proof. intros a b c. unfold year_le. lia. Qed.

Lemma insert_by_year_Permutation r l : insert_by_year r l ≡ₚ r :: l.
Proof.
  induction l as [|x l IH]; simpl; [done|].
  destruct (decide (year_le r x)); [done|].
  rewrite IH. apply Permutation_swap.
Qed.

Lemma sort_by_year_Permutation l : sort_by_year l ≡ₚ l.
Proof.
  induction l as [|x l IH]; simpl; [done|].
  by rewrite insert_by_year_Permutation, IH.
Qed.

Lemma insert_by_year_Sorted r l :
  Sorted year_le l → Sorted year_le (insert_by_year r l).
Proof.
  induction 1 as [|x l Hl IH Hhd]; simpl.
  - by repeat constructor.
  - destruct (decide (year_le r x)) as [Hle|Hgt].
    + by repeat constructor.
    + constructor; [done|].
      assert (year_le x r) by (unfold year_le in *; lia).
      destruct Hhd as [|y l Hxy]; simpl; [by constructor|].
      destruct (decide (year_le r y)); by constructor.
Qed.

Lemma sort_by_year_Sorted l : Sorted year_le (sort_by_year l).
Proof.
  induction l as [|x l IH]; simpl; [constructor|].
  by apply insert_by_year_Sorted.
Qed.

Ltac elem_of_header :=
  repeat first [apply list_elem_of_here | apply list_elem_of_further].

(** ** Data loader *)

Lemma lower_char_code c :
  N_of_ascii (Str.lower_char c)
  = if decide (65 ≤ N_of_ascii c ≤ 90)%N then (N_of_ascii c + 32)%N
    else N_of_ascii c.
Proof.
  destruct c as [[] [] [] [] [] [] [] []]; vm_compute; reflexivity.
Qed.

Lemma lower_length s : String.length (Str.lower s) = String.length s.
Proof. induction s as [|c s IH]; simpl; [done|]. by rewrite IH. Qed.

Lemma lower_get s k :
  String.get k (Str.lower s) = Str.lower_char <$> String.get k s.
Proof.
  revert k. induction s as [|c s IH]; intros k; simpl; [done|].
  destruct k as [|k]; simpl; [done|]. apply IH.
Qed.

(** C8: whatever table the parser returns, [load_data] returns it with
    every column name passed through [str.lower()] and with everything
    else untouched: the same number of columns in the same order, the
    same rows, the same year type; it rejects nothing itself, and a
    parser failure is passed on as it is. An ASCII name keeps its
    length, and each of its characters stays as it is unless it is one of
    A-Z, which becomes the matching one of a-z. *)
Theorem load_data_lowercases_columns_only {File : Type} `{Python}
  (read_csv : File → result DataFrame) (file : File) :
  match read_csv file with
  | Ok parsed =>
      ∃ df, load_data read_csv file = Ok df
        ∧ columns df = str_lower <$> columns parsed
        ∧ rows df = rows parsed
        ∧ year_dtype df = year_dtype parsed
        ∧ length (columns df) = length (columns parsed)
        ∧ ∀ i n, columns parsed !! i = Some n → Str.is_ascii n = true →
            ∃ n', columns df !! i = Some n'
              ∧ String.length n' = String.length n
              ∧ ∀ k c, String.get k n = Some c →
                  ∃ c', String.get k n' = Some c'
                    ∧ N_of_ascii c'
                      = if decide (65 ≤ N_of_ascii c ≤ 90)%N
                        then (N_of_ascii c + 32)%N else N_of_ascii c
  | Err e => load_data read_csv file = Err e
  end.
Proof.
  unfold load_data. destruct (read_csv file) as [parsed|e]; simpl; [|done].
  eexists; split; [done|]. simpl.
  split_and!; [done..|by rewrite length_fmap|].
  intros i n Hi Hascii. exists (Str.lower n).
  rewrite list_lookup_fmap, Hi. simpl. rewrite (str_lower_ascii n Hascii).
  split_and!; [done|apply lower_length|].
  intros k c Hc. exists (Str.lower_char c).
  rewrite lower_get, Hc. split; [done|]. apply lower_char_code.
Qed.

Example load_data_header :
  columns <$> @load_data _ Sample.ascii_only Sample.read_csv
                (Frame Sample.header Sample.kenya_rows)
  = Ok ["country"; "year"; "electricity_access"].
Proof. reflexivity. Qed.

Lemma load_data_lowercases_columns_only_witness :
  ∃ df, @load_data _ Sample.ascii_only Sample.read_csv
          (Frame Sample.header Sample.kenya_rows) = Ok df
    ∧ columns df = ["country"; "year"; "electricity_access"]
    ∧ rows df = Sample.kenya_rows.
Proof.
  pose proof (@load_data_lowercases_columns_only _ Sample.ascii_only
                Sample.read_csv (Frame Sample.header Sample.kenya_rows)) as Hl.
  simpl in Hl. destruct Hl as (df & Hload & Hcols & Hrows & _).
  exists df. by rewrite Hcols, Hrows.
Defined.

(** ** Country list *)

Lemma one_country_column_elem_of df :
  one_country_column df → "country" ∈ columns df.
Proof.
  unfold one_country_column. intros Hone.
  destruct (filter _ _) as [|n l] eqn:Hf; [done|].
  assert (n ∈ filter ("country" =.) (columns df)) as Hn
    by (rewrite Hf; apply list_elem_of_here).
  by apply list_elem_of_filter in Hn as [<- Hn].
Qed.

Lemma countries_Ok df :
  one_country_column df →
  countries df = sorted (unique (country <$> rows df)).
Proof.
  intros Hone. unfold countries, getitem.
  rewrite decide_True by (by apply one_country_column_elem_of). simpl.
  by rewrite decide_True.
Qed.

Lemma Forall_unique `{EqDecision A} (P : A → Prop) (l : list A) :
  Forall P l → Forall P (unique l).
Proof.
  rewrite !Forall_forall. intros Hl x Hx. apply Hl. by apply elem_of_unique.
Qed.

(** C4, as stated, fails on two kinds of dataset: with a blank cell in
    the country column beside a name, sorting compares NaN with text and
    raises [TypeError]; with two columns named country, line 54 raises
    [AttributeError]. Neither run gets a list. *)
Lemma countries_raises_on_blank_or_repeated_column :
  countries (Frame ["country"; "year"]
               [Sample.observation "Kenya" 2015 (Finite 55);
                Row Blank 2016 (λ _, NaN)])
  = Err TypeError
  ∧ countries (Frame ["country"; "country"; "year"]
                 [Sample.observation "Kenya" 2015 (Finite 55)])
    = Err AttributeError.
Proof. split; reflexivity. Qed.

(** C4, amended: when the table has exactly one column named country and
    its cells are all text, or all integers, the selectable countries are
    the distinct values of that column in ascending order: the list is
    sorted, repeats nothing, holds exactly the values of the column, and
    is the only such list. *)
Theorem countries_sorted_distinct df :
  one_country_column df →
  Forall (λ r, ∃ s, country r = Name s) (rows df)
  ∨ Forall (λ r, ∃ z, country r = Code z) (rows df) →
  ∃ cs, countries df = Ok cs
    ∧ Sorted place_le cs
    ∧ NoDup cs
    ∧ (∀ c, c ∈ cs ↔ c ∈ country <$> rows df)
    ∧ (∀ l, Sorted place_le l → NoDup l →
            (∀ c, c ∈ l ↔ c ∈ country <$> rows df) → l = cs).
Proof.
  intros Hone Hcells. rewrite (countries_Ok df Hone).
  set (col := country <$> rows df).
  assert (∃ cs, sorted (unique col) = Ok cs
            ∧ Sorted place_le cs ∧ cs ≡ₚ unique col) as (cs & -> & Hs & Hp).
  { destruct Hcells as [Hn|Hc].
    - assert (Forall (λ x, ∃ s, x = Name s) (unique col)) as Hall
        by (apply Forall_unique, Forall_fmap; assumption).
      rewrite (sorted_names _ Hall). eexists. split; [done|]. split.
      + apply (Sorted_fmap Name String.le place_le); [done|].
        apply (Sorted_merge_sort String.le).
      + by rewrite merge_sort_Permutation, names_all.
    - assert (Forall (λ x, ∃ z, x = Code z) (unique col)) as Hall
        by (apply Forall_unique, Forall_fmap; assumption).
      rewrite (sorted_codes _ Hall). eexists. split; [done|]. split.
      + apply (Sorted_fmap Code Z.le place_le); [done|].
        apply (Sorted_merge_sort Z.le).
      + by rewrite merge_sort_Permutation, codes_all. }
  assert (NoDup cs) as Hnd by (rewrite Hp; apply NoDup_unique).
  assert (∀ c, c ∈ cs ↔ c ∈ col) as Hmem
    by (intros c; by rewrite Hp, elem_of_unique).
  exists cs. split_and!; [done..|].
  intros l Hl Hndl Hl'.
  apply (Sorted_unique place_le); [done..|].
  apply NoDup_Permutation; [done..|]. intros c. by rewrite Hl', Hmem.
Qed.

Lemma countries_sorted_distinct_witness :
  ∃ cs, countries Sample.mixed = Ok cs
    ∧ Sorted place_le cs
    ∧ NoDup cs
    ∧ (∀ c, c ∈ cs ↔ c ∈ country <$> rows Sample.mixed)
    ∧ (∀ l, Sorted place_le l → NoDup l →
            (∀ c, c ∈ l ↔ c ∈ country <$> rows Sample.mixed) → l = cs).
Proof.
  apply (countries_sorted_distinct Sample.mixed); [reflexivity|].
  left. repeat constructor; by eexists.
Defined.

Example countries_mixed :
  countries Sample.mixed = Ok [Name "Chad"; Name "Ghana"; Name "Kenya"].
Proof. reflexivity. Qed.

(** An all-digit column is typed as integers and sorted by value. *)
Example countries_codes :
  countries (Frame ["country"]
               [Row (Code 2) 2015 (λ _, NaN); Row (Code 10) 2015 (λ _, NaN);
                Row (Code 1) 2015 (λ _, NaN)])
  = Ok [Code 1; Code 2; Code 10].
Proof. reflexivity. Qed.

(** ** Per-country rows *)


Lemma country_df_rows df selected_country cdf :
  country_df df selected_country = Ok cdf →
  columns cdf = columns df
  ∧ rows cdf = sort_by_year (filter (is_selected selected_country) (rows df)).
Proof.
  unfold country_df, getitem, sort_values_year. simpl.
  repeat case_decide; simpl; try done. by intros [= <-].
Qed.

Lemma sorted_years (l : list row) :
  Sorted year_le l → Sorted Z.le (year <$> l).
Proof. apply Sorted_fmap. by intros x y. Qed.




Example country_df_mixed :
  (λ cdf, (λ r, (year r, access r electricity_access)) <$> rows cdf)
    <$> country_df Sample.mixed (Some (Name "Kenya"))
  = Ok [(2015, Finite 55); (2015, Finite 57); (2016, Finite 60)].
Proof. reflexivity. Qed.

(** ** Non-empty selection *)


Lemma selectbox_nil {A} pick : selectbox (@nil A) pick = None.
Proof. by destruct pick. Qed.

Lemma names_full l : length (names l) = length l → Name <$> names l = l.
Proof.
  induction l as [|x l IH]; [done|]. pose proof (names_length l) as Hle.
  destruct x as [s|z|].
  - change (names (Name s :: l)) with (s :: names l). intros [= Hl].
    by rewrite fmap_cons, IH.
  - change (names (Code z :: l)) with (names l). intros Hl.
    change (length (Code z :: l)) with (S (length l)) in Hl. lia.
  - change (names (Blank :: l)) with (names l). intros Hl.
    change (length (Blank :: l)) with (S (length l)) in Hl. lia.
Qed.

Lemma codes_length l : (length (codes l) ≤ length l)%nat.
Proof.
  induction l as [|[] l IH]; simpl; [done|..];
    fold (codes l); simpl; lia.
Qed.

Lemma codes_full l : length (codes l) = length l → Code <$> codes l = l.
Proof.
  induction l as [|x l IH]; [done|]. pose proof (codes_length l) as Hle.
  destruct x as [s|z|].
  - change (codes (Name s :: l)) with (codes l). intros Hl.
    change (length (Name s :: l)) with (S (length l)) in Hl. lia.
  - change (codes (Code z :: l)) with (z :: codes l). intros [= Hl].
    by rewrite fmap_cons, IH.
  - change (codes (Blank :: l)) with (codes l). intros Hl.
    change (length (Blank :: l)) with (S (length l)) in Hl. lia.
Qed.

(** Whatever [sorted] returns holds the values it was given. *)
Lemma sorted_Permutation l cs : sorted l = Ok cs → cs ≡ₚ l.
Proof.
  unfold sorted. repeat case_decide.
  - intros [= <-]. by rewrite merge_sort_Permutation, names_full.
  - intros [= <-]. by rewrite merge_sort_Permutation, codes_full.
  - destruct l as [|x [|y l]]; try done. by intros [= <-].
  - destruct l as [|x [|y l]]; try done. by intros [= <-].
Qed.

Lemma countries_inv df cs :
  countries df = Ok cs →
  one_country_column df ∧ cs ≡ₚ unique (country <$> rows df).
Proof.
  unfold countries, getitem.
  destruct (decide ("country" ∈ columns df)); simpl; [|done].
  case_decide; [|done]. intros Hs%sorted_Permutation. by split.
Qed.




(** ** Horizon *)

Lemma slider_range pick : 3 ≤ slider 3 15 pick ≤ 15.
Proof. unfold slider, slider_value. case_decide; lia. Qed.

(** ** Forecast years *)

Lemma foldr_max_spec y ys :
  foldr Z.max y ys ∈ y :: ys ∧ Forall (λ z, z ≤ foldr Z.max y ys) (y :: ys).
Proof.
  induction ys as [|z zs [Hin Hall]]; simpl.
  - split; [apply list_elem_of_here|]. by repeat constructor.
  - apply Forall_cons in Hall as [Hy Hzs]. split.
    + destruct (Z.max_spec z (foldr Z.max y zs)) as [[_ ->]|[_ ->]].
      * apply elem_of_cons in Hin as [->|Hin]; [apply list_elem_of_here|].
        by do 2 apply list_elem_of_further.
      * apply list_elem_of_further, list_elem_of_here.
    + repeat constructor; [lia..|].
      eapply Forall_impl; [done|]. simpl. lia.
Qed.



Lemma series_years cdf a s : series cdf a = Ok s → s.*1 = year <$> rows cdf.
Proof.
  unfold series, getitem. repeat case_decide; try done. intros [= <-].
  rewrite <- list_fmap_compose. done.
Qed.

Lemma series_of_country_df_sorted df selected_country cdf a s :
  country_df df selected_country = Ok cdf → series cdf a = Ok s →
  Sorted Z.le s.*1.
Proof.
  intros [_ Hrows]%country_df_rows ->%series_years. rewrite Hrows.
  apply sorted_years, sort_by_year_Sorted.
Qed.

Lemma wrap64_id z : - 2 ^ 63 ≤ z < 2 ^ 63 → wrap64 z = z.
Proof.
  unfold wrap64. change (2 ^ 64) with 18446744073709551616.
  change (2 ^ 63) with 9223372036854775808.
  intros Hz. rewrite Z.mod_small; lia.
Qed.





Example forecast_year_index_kenya :
  forecast_year_index integer
    ((λ r, (year r, access r electricity_access)) <$> Sample.kenya_rows) 5
  = Ok [2023; 2024; 2025; 2026; 2027].
Proof. reflexivity. Qed.

(** ** Planning insight *)

Lemma round_half_even_near (x : Q) :
  (Qabs (x - inject_Z (round_half_even x)) <= 1 # 2)%Q.
Proof.
  pose proof (Qfloor_le x) as Hlo. pose proof (Qlt_floor x) as Hhi.
  rewrite inject_Z_plus in Hhi. change (inject_Z 1) with 1%Q in Hhi.
  unfold round_half_even.
  destruct (x - inject_Z (Qfloor x) ?= 1 # 2)%Q eqn:Hc.
  - apply Qeq_alt in Hc.
    destruct (Z.even (Qfloor x)); [|rewrite inject_Z_plus;
      change (inject_Z 1) with 1%Q]; apply Qabs_Qle_condition; split; lra.
  - apply Qlt_alt in Hc. apply Qabs_Qle_condition; split; lra.
  - apply Qgt_alt in Hc. rewrite inject_Z_plus. change (inject_Z 1) with 1%Q.
    apply Qabs_Qle_condition; split; lra.
Qed.

Lemma round_half_even_nonneg (x : Q) : (0 <= x)%Q → 0 ≤ round_half_even x.
Proof.
  intros Hx. assert (0 ≤ Qfloor x) by (by apply (Qfloor_resp_le 0 x)).
  unfold round_half_even.
  destruct (_ ?= _)%Q; [destruct (Z.even _)|..]; lia.
Qed.

Lemma float_lt_Finite (x y : Q) : float_lt (Finite x) (Finite y) = true ↔ (x < y)%Q.
Proof.
  simpl. destruct (Qlt_le_dec x y) as [Hlt|Hge]; [done|].
  split; [done|]. intros Hlt. by apply Qle_not_lt in Hge.
Qed.

Lemma last_None {A} (l : list A) : last l = None ↔ l = [].
Proof.
  split; [|by intros ->].
  destruct l as [|x l] using rev_ind; [done|]. by rewrite last_snoc.
Qed.

(** C3: the banner is decided by the last value of the forecast and by
    nothing else of the series or the forecast: whenever the series is
    not empty, the banner is the one of [forecast.iloc[-1]]. Below 90 it
    is a warning that names the country and shows the value with one
    decimal: the shown number of tenths is the nearest to ten times the
    value. From 90 on it is the success message. A NaN and a positive
    infinity are not below 90 and get the success message; a negative
    infinity and the negative zero are below 90 and are shown as [-inf]
    and [-0.0]. *)
Theorem recommendation_threshold (c : string) (q : Q) :
  (∀ (s : Series) (fc : list float64) v,
     s ≠ [] → last fc = Some v →
     recommendation (Some (Name c)) s fc
     = Ok (planning_insight (Some (Name c)) v))
  ∧ ((q < 90)%Q →
     planning_insight (Some (Name c)) (Finite q)
     = Warning (" " +:+ c +:+ " is projected to remain below universal access ("
                +:+ format_1f (Finite q)
                +:+ "%). Accelerated investment is recommended."))
  ∧ ((90 <= q)%Q →
     planning_insight (Some (Name c)) (Finite q)
     = Success (" " +:+ c
                +:+ " is on track to approach universal electricity access."))
  ∧ planning_insight (Some (Name c)) NaN
    = Success (" " +:+ c
               +:+ " is on track to approach universal electricity access.")
  ∧ planning_insight (Some (Name c)) (Infinity false)
    = Success (" " +:+ c
               +:+ " is on track to approach universal electricity access.")
  ∧ planning_insight (Some (Name c)) (Infinity true)
    = Warning (" " +:+ c
               +:+ " is projected to remain below universal access (-inf%). Accelerated investment is recommended.")
  ∧ planning_insight (Some (Name c)) NegativeZero
    = Warning (" " +:+ c
               +:+ " is projected to remain below universal access (-0.0%). Accelerated investment is recommended.")
  ∧ format_1f (Finite q)
    = (if Qlt_le_dec q 0 then "-" else "")
        +:+ pretty (tenths q `div` 10) +:+ "." +:+ pretty (tenths q `mod` 10)
  ∧ 0 ≤ tenths q `mod` 10 < 10
  ∧ (Qabs (Qabs q * 10 - inject_Z (tenths q)) <= 1 # 2)%Q.
Proof.
  split_and!.
  - intros s fc v Hs Hv. unfold recommendation, iloc_last. rewrite Hv.
    destruct (last s.*2) as [latest|] eqn:Hl; [done|].
    apply last_None, fmap_nil_inv in Hl. done.
  - intros Hq. unfold planning_insight, below.
    by rewrite (proj2 (float_lt_Finite q 90) Hq).
  - intros Hq. unfold planning_insight, below.
    destruct (float_lt (Finite q) (Finite 90)) eqn:Hlt; [|done].
    apply float_lt_Finite in Hlt. by apply Qle_not_lt in Hq.
  - done.
  - done.
  - done.
  - done.
  - done.
  - apply Z.mod_pos_bound. lia.
  - apply Z.mod_pos_bound. lia.
  - apply round_half_even_near.
Qed.

Lemma recommendation_threshold_witness :
  recommendation (Some (Name "Kenya")) [(2022, Finite 75)]
    [Value (Finite 80); Value (Finite (823 # 10))]
  = Ok (Warning " Kenya is projected to remain below universal access (82.3%). Accelerated investment is recommended.")
  ∧ planning_insight (Some (Name "Kenya")) (Finite 90)
    = Success " Kenya is on track to approach universal electricity access.".
Proof.
  split.
  - destruct (recommendation_threshold "Kenya" (823 # 10)) as (Hlast & _).
    by rewrite (Hlast [(2022, Finite 75)]
                  [Value (Finite 80); Value (Finite (823 # 10))]
                  (Value (Finite (823 # 10)))).
  - destruct (recommendation_threshold "Kenya" 90) as (_ & _ & Hfrom & _).
    apply Hfrom. discriminate.
Defined.

Example format_1f_samples :
  format_1f (Finite (823 # 10)) = "82.3"
  ∧ format_1f (Finite (8995 # 100)) = "90.0"
  ∧ format_1f (Finite (25 # 100)) = "0.2"
  ∧ format_1f (Finite (-4 # 100)) = "-0.0"
  ∧ format_1f NaN = "nan".
Proof. by vm_compute. Qed.

(** ** Heat map matrix *)

Lemma mean_NaN l : mean l = NaN ↔ finite_values l = [].
Proof. unfold mean. by destruct (finite_values l). Qed.

Lemma isnan_false v : isnan v = false ↔ v ≠ NaN.
Proof. by destruct v. Qed.

Lemma mean_isnan l : isnan (mean l) = false ↔ finite_values l ≠ [].
Proof. by rewrite isnan_false, mean_NaN. Qed.


Lemma group_nil a rs k :
  (∀ r, r ∈ rs → (country r, year r) ≠ k) → group a rs k = [].
Proof.
  intros Hk. unfold group.
  destruct (filter _ rs) as [|r l] eqn:Hf; [done|].
  assert (r ∈ filter (λ r, (country r, year r) = k) rs) as Hr
    by (rewrite Hf; apply list_elem_of_here).
  apply list_elem_of_filter in Hr as [Heq Hr]. by destruct (Hk r Hr).
Qed.

Lemma elem_of_group_means a rs kv :
  kv ∈ group_means a rs ↔
    kv.2 = mean (group a rs kv.1) ∧ finite_values (group a rs kv.1) ≠ []
    ∧ kv.1.1 ≠ Blank.
Proof.
  unfold group_means. rewrite list_elem_of_filter, list_elem_of_fmap.
  split.
  - intros (Hnan & k & -> & Hk). simpl in *.
    rewrite merge_sort_Permutation, elem_of_unique in Hk.
    apply list_elem_of_fmap in Hk as (r & -> & [Hr _]%list_elem_of_filter).
    by rewrite <- mean_isnan.
  - intros (Hv & Hne & Hnamed). rewrite Hv, mean_isnan. split; [done|].
    exists kv.1. split; [destruct kv as [k v]; simpl in *; congruence|].
    rewrite merge_sort_Permutation, elem_of_unique.
    destruct (decide (kv.1 ∈ (λ r, (country r, year r)) <$> rs)) as [Hk|Hk].
    + apply list_elem_of_fmap in Hk as (r & Hkey & Hr).
      apply list_elem_of_fmap. exists r. split; [done|].
      apply list_elem_of_filter. split; [|done]. by rewrite Hkey in Hnamed.
    + destruct Hne. rewrite group_nil; [done|].
      intros r Hr Heq. apply Hk. rewrite <- Heq.
      by apply (list_elem_of_fmap_2 (λ r, (country r, year r))).
Qed.

(** Every cell of a named country is the mean of its group, present or
    not. *)
Lemma cell_mean a rs c y :
  c ≠ Blank → cell (group_means a rs) c y = mean (group a rs (c, y)).
Proof.
  intros Hc. unfold cell.
  destruct (list_find _ _) as [[i kv]|] eqn:Hfind.
  - apply list_find_Some in Hfind as (Hi & Hk & _).
    apply list_elem_of_lookup_2, elem_of_group_means in Hi as [-> _].
    by rewrite Hk.
  - symmetry. apply mean_NaN.
    apply list_find_None in Hfind. rewrite Forall_forall in Hfind.
    destruct (decide (finite_values (group a rs (c, y)) = [])) as [|Hne];
      [done|].
    destruct (Hfind ((c, y), mean (group a rs (c, y)))); [|done].
    by apply elem_of_group_means.
Qed.

Lemma elem_of_index a rs c :
  c ∈ index (unstack (group_means a rs)) ↔
    c ≠ Blank ∧ ∃ y, finite_values (group a rs (c, y)) ≠ [].
Proof.
  simpl. rewrite elem_of_unique, list_elem_of_fmap. split.
  - intros ([[c' y] v] & -> & (_ & Hne & Hc)%elem_of_group_means).
    split; [done|]. by exists y.
  - intros [Hc [y Hne]]. exists ((c, y), mean (group a rs (c, y))).
    split; [done|]. by apply elem_of_group_means.
Qed.

Lemma elem_of_pcolumns a rs y :
  y ∈ pcolumns (unstack (group_means a rs)) ↔
    ∃ c, c ≠ Blank ∧ finite_values (group a rs (c, y)) ≠ [].
Proof.
  simpl. rewrite merge_sort_Permutation, elem_of_unique, list_elem_of_fmap.
  split.
  - intros ([[c y'] v] & -> & (_ & Hne & Hc)%elem_of_group_means).
    by exists c.
  - intros (c & Hc & Hne). exists ((c, y), mean (group a rs (c, y))).
    split; [done|]. by apply elem_of_group_means.
Qed.

Lemma list_find_eq `{EqDecision A} (l : list A) x :
  x ∈ l → ∃ i, list_find (x =.) l = Some (i, x) ∧ l !! i = Some x.
Proof.
  intros Hx. destruct (list_find_elem_of (x =.) l x Hx eq_refl) as [[i x'] Hf].
  pose proof Hf as (Hi & <- & _)%list_find_Some. by exists i.
Qed.

(** Reading the matrix at two existing labels gives the group's mean. *)
Lemma loc_unstack a rs c y :
  c ∈ index (unstack (group_means a rs)) →
  y ∈ pcolumns (unstack (group_means a rs)) →
  loc (unstack (group_means a rs)) c y = Some (mean (group a rs (c, y))).
Proof.
  intros Hc Hy. unfold loc.
  destruct (list_find_eq _ _ Hc) as (i & -> & Hi).
  destruct (list_find_eq _ _ Hy) as (j & -> & Hj). simpl in *.
  rewrite list_lookup_fmap, Hi. simpl.
  rewrite list_lookup_fmap, Hj. simpl. rewrite cell_mean; [done|].
  by apply elem_of_index in Hc as [Hc _].
Qed.

Lemma pivot_table_Ok df a :
  access_name a ∈ columns df → "country" ∈ columns df → "year" ∈ columns df →
  pivot_table df a = Ok (unstack (group_means a (rows df))).
Proof. intros. unfold pivot_table. by rewrite !decide_True. Qed.


Lemma pivot_table_inv df a p :
  pivot_table df a = Ok p → p = unstack (group_means a (rows df)).
Proof. unfold pivot_table. repeat case_decide; try done. by intros [= <-]. Qed.


(** ** Runs *)

Section runs.
Context {File : Type} `{Python} `{ForecastEngine}.
Variable read_csv : File → result DataFrame.

Lemma bind_emit e (k : () → script ()) :
  page (emit e ≫= k) = e :: page (k ()) ∧ ending (emit e ≫= k) = ending (k ()).
Proof. unfold page, ending, emit, mbind, script_bind. by destruct (k ()). Qed.

Lemma bind_ret {A} (a : A) (k : A → script ()) :
  page (mret a ≫= k) = page (k a) ∧ ending (mret a ≫= k) = ending (k a).
Proof.
  unfold page, ending, mret, script_ret, mbind, script_bind. by destruct (k a).
Qed.

Lemma name_bound G n : n ∈ G → name G n = mret ().
Proof. intros Hn. unfold name. by rewrite decide_True. Qed.

Lemma name_unbound G n : n ∉ G → name G n = raise (NameError n).
Proof. intros Hn. unfold name. by rewrite decide_False. Qed.

Lemma page_st G e k : "st" ∈ G → page (st G e ≫= k) = e :: page (k ()).
Proof.
  intros Hst. unfold st. rewrite (name_bound _ _ Hst).
  unfold page, emit, mret, script_ret, mbind, script_bind. simpl.
  by destruct (k ()).
Qed.

Lemma ending_st G e k : "st" ∈ G → ending (st G e ≫= k) = ending (k ()).
Proof.
  intros Hst. unfold st. rewrite (name_bound _ _ Hst).
  unfold ending, emit, mret, script_ret, mbind, script_bind. simpl.
  by destruct (k ()).
Qed.

Lemma page_name G n k : n ∈ G → page (name G n ≫= k) = page (k ()).
Proof. intros Hn. rewrite (name_bound _ _ Hn). apply bind_ret. Qed.

Lemma ending_name G n k : n ∈ G → ending (name G n ≫= k) = ending (k ()).
Proof. intros Hn. rewrite (name_bound _ _ Hn). apply bind_ret. Qed.

Lemma page_lift {A} (a : A) (k : A → script ()) :
  page (lift (Ok a) ≫= k) = page (k a).
Proof. apply (bind_ret a k). Qed.

Lemma ending_lift {A} (a : A) (k : A → script ()) :
  ending (lift (Ok a) ≫= k) = ending (k a).
Proof. apply (bind_ret a k). Qed.

Lemma bind_assoc {A B} (m : script A) (k : A → script B) (k' : B → script ()) :
  (m ≫= k) ≫= k' = m ≫= (λ a, k a ≫= k').
Proof.
  unfold mbind, script_bind. destruct m as [t [a|h]]; [|done].
  destruct (k a) as [t' [b|h]]; [|done].
  destruct (k' b) as [t'' o]. by rewrite (assoc_L (++)).
Qed.

Lemma st_then G e (k : () → script ()) t o :
  "st" ∈ G → k () = (t, o) → st G e ≫= k = (e :: t, o).
Proof.
  intros HG Hk. unfold st. rewrite (name_bound _ _ HG).
  unfold emit, mret, script_ret, mbind, script_bind. simpl. by rewrite Hk.
Qed.

Lemma name_then G n (k : () → script ()) : n ∈ G → name G n ≫= k = k ().
Proof.
  intros HG. rewrite (name_bound _ _ HG).
  unfold mret, script_ret, mbind, script_bind. simpl. by destruct (k ()).
Qed.

Lemma lift_then {A} (x : A) (k : A → script ()) : lift (Ok x) ≫= k = k x.
Proof.
  unfold lift, mret, script_ret, mbind, script_bind. simpl. by destruct (k x).
Qed.

(** C6: with no file in the uploader the page is the title block, the
    uploader and the warning, and the run stops there, whatever the
    parser, the estimator and the other controls are: nothing is loaded,
    and no chart, model summary or recommendation is on the page. *)
Theorem no_upload_warns_and_stops country_pick access_pick horizon_pick :
  let r := run read_csv (Session None country_pick access_pick horizon_pick) in
  page r = [PageConfig "Electrification Forecast Dashboard" "wide";
            Title "Electrification Forecasting Dashboard";
            Markdown description;
            FileUploader "Upload electrification dataset (CSV)";
            Warning "Please upload a CSV file to continue."]
  ∧ ending r = inl Stopped
  ∧ (∀ e, e ∈ page r →
       match e with
       | Pyplot _ | Header _ | Text _ | Success _ | Error _
       | Selectbox _ _ | Slider _ _ _ _ => False
       | _ => True
       end).
Proof.
  intros r. split_and!; [reflexivity..|].
  intros e He. repeat (apply elem_of_cons in He as [->|He]; [done|]).
  by apply elem_of_nil in He.
Qed.

(** With a file in the uploader, the script as written never gets past
    the first chart: it ends in an exception, by [plt] at the latest, and
    neither stops by itself nor shows an error banner. *)
Lemma run_with_file_raises u file :
  uploaded_file u = Some file →
  ∃ e, ending (run read_csv u) = inl (Raised e)
    ∧ ∀ body, Error body ∉ page (run read_csv u).
Proof.
  intros Hfile.
  assert (∀ (l : list element) body,
            Forall (λ e, if e is Error _ then False else True) l →
            Error body ∉ l) as Hno.
  { intros l body Hl Hin. rewrite Forall_forall in Hl. apply (Hl _ Hin). }
  unfold run, run_with. rewrite Hfile.
  rewrite !page_st, !ending_st, page_name, ending_name by elem_of_header.
  destruct (load_data read_csv file) as [df|e].
  2:{ exists e. split; [done|]. intros body. apply Hno. by repeat constructor. }
  rewrite page_lift, ending_lift, page_st, ending_st by elem_of_header.
  destruct (countries df) as [cs|e].
  2:{ exists e. split; [done|]. intros body. apply Hno. by repeat constructor. }
  rewrite page_lift, ending_lift, !page_st, !ending_st by elem_of_header.
  destruct (country_df df _) as [cdf|e].
  2:{ exists e. split; [done|]. intros body. apply Hno. by repeat constructor. }
  rewrite page_lift, ending_lift. unfold trends.
  rewrite !bind_assoc, page_st, ending_st by elem_of_header.
  rewrite name_unbound
    by (intros Hin; repeat (apply elem_of_cons in Hin as [?|Hin]; [done|]);
        by apply elem_of_nil in Hin).
  exists (NameError "plt"). split; [done|].
  intros body. apply Hno. by repeat constructor.
Qed.

Lemma getitem_Ok {A} df n (f : row → A) :
  n ∈ columns df → getitem df n f = Ok (f <$> rows df).
Proof. intros Hn. unfold getitem. by rewrite decide_True. Qed.









Lemma recommendation_banner selected_country s fc e :
  recommendation selected_country s fc = Ok e →
  ∃ body, e = Warning body ∨ e = Success body.
Proof.
  unfold recommendation.
  destruct (iloc_last s.*2) as [latest_value|]; [|done].
  destruct (iloc_last fc) as [future_value|]; [|done].
  intros [= <-]. unfold planning_insight. case_match; eauto.
Qed.



End runs.

(** C2, on the script as written: a file that holds four years of one
    country. The run shows the controls and the heading of the trend
    section and then ends in [NameError] for [plt], which no import
    binds; the insufficient-data banner is never reached. *)
Theorem short_series_run_ends_in_name_error :
  let u := Session (Some (Frame Sample.header Sample.short_rows)) 0 0 5 in
  let r := @run _ Sample.ascii_only Sample.persistence Sample.read_csv u in
  page r = [PageConfig "Electrification Forecast Dashboard" "wide";
            Title "Electrification Forecasting Dashboard";
            Markdown description;
            FileUploader "Upload electrification dataset (CSV)";
            SidebarHeader "Controls";
            Selectbox "Select Country" ["Kenya"];
            Selectbox "Electricity Access Type"
              ["electricity_access"; "rural_access"; "urban_access"];
            Slider "Forecast Horizon (Years)" 3 15 5;
            Header "Historical Electrification Trends"]
  ∧ ending r = inl (Raised (NameError "plt"))
  ∧ Error "Not enough data points for forecasting." ∉ page r.
Proof.
  intros u r. split_and!; [reflexivity..|].
  intros Hin. repeat (apply elem_of_cons in Hin as [?|Hin]; [done|]).
  by apply elem_of_nil in Hin.
Qed.


(** The same session with [plt] and [sns] bound. *)
Example short_series_run_with_plotting_bound :
  let u := Session (Some (Frame Sample.header Sample.short_rows)) 0 0 5 in
  let r := @run_with _ Sample.ascii_only Sample.persistence Sample.read_csv
             ("plt" :: "sns" :: imports) u in
  last (page r) = Some (Error "Not enough data points for forecasting.")
  ∧ ending r = inl Stopped
  ∧ length (page r) = 16%nat.
Proof. by vm_compute. Qed.

(** A full run with [plt] and [sns] bound: eight years of Kenya, horizon
    five. *)
Example kenya_run_with_plotting_bound :
  let u := Session (Some (Frame Sample.header Sample.kenya_rows)) 0 0 5 in
  let r := @run_with _ Sample.ascii_only Sample.persistence Sample.read_csv
             ("plt" :: "sns" :: imports) u in
  ending r = inr ()
  ∧ Warning " Kenya is projected to remain below universal access (75.0%). Accelerated investment is recommended."
    ∈ page r.
Proof.
  split; [reflexivity|]. vm_compute. elem_of_header.
Qed.


(** The matrix of the whole table against the matrix the selected
    country's rows alone would give. *)
Example pivot_table_mixed :
  pivot_table Sample.mixed electricity_access
  = Ok (Pivot [Name "Ghana"; Name "Kenya"] [2015; 2016]
          [[Finite 70; NaN]; [Finite (112 # 2); Finite 60]])
  ∧ (cdf ← country_df Sample.mixed (Some (Name "Ghana"));
     pivot_table cdf electricity_access)
    = Ok (Pivot [Name "Ghana"] [2015] [[Finite 70]]).
Proof. split; reflexivity. Qed.

(** Rows with a blank country are left out of the matrix, and a matrix
    with no row at all makes [sns.heatmap] raise. *)
Example heat_map_of_blank_countries :
  let df := Frame Sample.loaded_header
              [Row Blank 2015 (λ _, Finite 40);
               Sample.observation "Kenya" 2015 (Finite 55)] in
  let unnamed := Frame Sample.loaded_header [Row Blank 2015 (λ _, Finite 40)] in
  pivot_table df electricity_access
  = Ok (Pivot [Name "Kenya"] [2015] [[Finite 55]])
  ∧ pivot_table unnamed electricity_access = Ok (Pivot [] [] [])
  ∧ ending (heat_map ("plt" :: "sns" :: imports) unnamed electricity_access)
    = inl (Raised ValueError).
Proof. split_and!; reflexivity. Qed.

(** * Further properties *)

Lemma not_elem_of_imports n :
  n ≠ "st" → n ≠ "pd" → n ≠ "np" → n ≠ "ARIMA" → n ∉ imports.
Proof.
  intros ???? Hin. unfold imports in Hin.
  repeat (apply elem_of_cons in Hin as [?|Hin]; [done|]).
  by apply elem_of_nil in Hin.
Qed.

Ltac emits := rewrite ?bind_assoc; apply st_then; [elem_of_header|].

(** ** Runs of the script as written *)

Section written.
Context {File : Type} `{Python} `{ForecastEngine}.
Variable read_csv : File → result DataFrame.

(** A file the parser rejects: the page stays at the uploader and the
    parser's exception ends the run. *)
Theorem run_parser_failure u file e :
  uploaded_file u = Some file →
  read_csv file = Err e →
  run read_csv u =
    ([PageConfig "Electrification Forecast Dashboard" "wide";
      Title "Electrification Forecasting Dashboard";
      Markdown description;
      FileUploader "Upload electrification dataset (CSV)"],
     Halted (Raised e)).
Proof.
  intros Hfile Hread. unfold run, run_with. rewrite Hfile.
  do 4 emits. rewrite name_then by elem_of_header.
  unfold load_data. by rewrite Hread.
Qed.

(** A file none of whose column names reads "country" when lowercased:
    the sidebar heading is shown and line 54 raises [KeyError]. *)
Theorem run_without_country_column u file parsed :
  uploaded_file u = Some file →
  read_csv file = Ok parsed →
  (∀ n, n ∈ columns parsed → str_lower n ≠ "country") →
  run read_csv u =
    ([PageConfig "Electrification Forecast Dashboard" "wide";
      Title "Electrification Forecasting Dashboard";
      Markdown description;
      FileUploader "Upload electrification dataset (CSV)";
      SidebarHeader "Controls"],
     Halted (Raised (KeyError "country"))).
Proof.
  intros Hfile Hread Hnone. unfold run, run_with. rewrite Hfile.
  do 4 emits. rewrite name_then by elem_of_header.
  assert (load_data read_csv file
          = Ok (Table (str_lower <$> columns parsed) (rows parsed)
                  (year_dtype parsed))) as ->
    by (unfold load_data; by rewrite Hread).
  rewrite lift_then. emits.
  unfold countries, getitem. simpl columns. rewrite decide_False; [done|].
  intros (n & Hn & Hin)%list_elem_of_fmap. by destruct (Hnone n Hin).
Qed.

(** A table for which line 54 gives a country list and which has no year
    column: both selectboxes and the slider are shown, then the sort of
    line 72 raises [KeyError]. *)
Theorem run_without_year_column u file df cs :
  uploaded_file u = Some file →
  load_data read_csv file = Ok df →
  countries df = Ok cs → "year" ∉ columns df →
  run read_csv u =
    ([PageConfig "Electrification Forecast Dashboard" "wide";
      Title "Electrification Forecasting Dashboard";
      Markdown description;
      FileUploader "Upload electrification dataset (CSV)";
      SidebarHeader "Controls";
      Selectbox "Select Country" (show <$> cs);
      Selectbox "Electricity Access Type"
        ["electricity_access"; "rural_access"; "urban_access"];
      Slider "Forecast Horizon (Years)" 3 15 5],
     Halted (Raised (KeyError "year"))).
Proof.
  intros Hfile Hload Hcs Hy. unfold run, run_with. rewrite Hfile.
  pose proof (countries_inv _ _ Hcs) as [Hc%one_country_column_elem_of _].
  do 4 emits. rewrite name_then, Hload, lift_then by elem_of_header. emits.
  rewrite Hcs, lift_then. do 3 emits.
  unfold country_df, sort_values_year. rewrite (getitem_Ok df _ _ Hc). simpl.
  by rewrite decide_False.
Qed.


(** A table whose country column line 54 cannot sort or cannot read: the
    sidebar heading is the last thing shown, and no selectbox appears. *)
Theorem run_with_unsortable_countries u file df e :
  uploaded_file u = Some file →
  load_data read_csv file = Ok df →
  countries df = Err e → e ≠ Unmodelled →
  run read_csv u =
    ([PageConfig "Electrification Forecast Dashboard" "wide";
      Title "Electrification Forecasting Dashboard";
      Markdown description;
      FileUploader "Upload electrification dataset (CSV)";
      SidebarHeader "Controls"],
     Halted (Raised e)).
Proof.
  intros Hfile Hload Hcs _. unfold run, run_with. rewrite Hfile.
  do 4 emits. rewrite name_then, Hload, lift_then by elem_of_header. emits.
  by rewrite Hcs.
Qed.

End written.

Lemma run_parser_failure_witness :
  @run _ Sample.ascii_only Sample.persistence
    (λ _ : (), Err (LibraryError "pandas")) (Session (Some ()) 0 0 5) =
    ([PageConfig "Electrification Forecast Dashboard" "wide";
      Title "Electrification Forecasting Dashboard";
      Markdown description;
      FileUploader "Upload electrification dataset (CSV)"],
     Halted (Raised (LibraryError "pandas"))).
Proof.
  by apply (@run_parser_failure _ Sample.ascii_only Sample.persistence
              (λ _ : (), Err (LibraryError "pandas"))
              (Session (Some ()) 0 0 5) ()).
Defined.

Lemma run_without_country_column_witness :
  @run _ Sample.ascii_only Sample.persistence Sample.read_csv
    (Session (Some (Frame ["Nation"; "Year"] Sample.short_rows)) 0 0 5) =
    ([PageConfig "Electrification Forecast Dashboard" "wide";
      Title "Electrification Forecasting Dashboard";
      Markdown description;
      FileUploader "Upload electrification dataset (CSV)";
      SidebarHeader "Controls"],
     Halted (Raised (KeyError "country"))).
Proof.
  apply (@run_without_country_column _ Sample.ascii_only Sample.persistence
           Sample.read_csv
           (Session (Some (Frame ["Nation"; "Year"] Sample.short_rows)) 0 0 5)
           (Frame ["Nation"; "Year"] Sample.short_rows)
           (Frame ["Nation"; "Year"] Sample.short_rows));
    [reflexivity..|].
  intros n Hn. simpl in Hn.
  repeat (apply elem_of_cons in Hn as [->|Hn]; [done|]).
  by apply elem_of_nil in Hn.
Defined.

Lemma run_without_year_column_witness :
  @run _ Sample.ascii_only Sample.persistence Sample.read_csv
    (Session (Some (Frame ["Country"; "Electricity_Access"] Sample.short_rows))
       0 0 5) =
    ([PageConfig "Electrification Forecast Dashboard" "wide";
      Title "Electrification Forecasting Dashboard";
      Markdown description;
      FileUploader "Upload electrification dataset (CSV)";
      SidebarHeader "Controls";
      Selectbox "Select Country" ["Kenya"];
      Selectbox "Electricity Access Type"
        ["electricity_access"; "rural_access"; "urban_access"];
      Slider "Forecast Horizon (Years)" 3 15 5],
     Halted (Raised (KeyError "year"))).
Proof.
  apply (@run_without_year_column _ Sample.ascii_only Sample.persistence
           Sample.read_csv
           (Session (Some (Frame ["Country"; "Electricity_Access"]
                             Sample.short_rows)) 0 0 5)
           (Frame ["Country"; "Electricity_Access"] Sample.short_rows)
           (Frame ["country"; "electricity_access"] Sample.short_rows)
           [Name "Kenya"]);
    [reflexivity|reflexivity|reflexivity|].
  intros Hin. simpl in Hin.
  repeat (apply elem_of_cons in Hin as [?|Hin]; [done|]).
  by apply elem_of_nil in Hin.
Defined.


Lemma run_with_unsortable_countries_witness :
  @run _ Sample.ascii_only Sample.persistence Sample.read_csv
    (Session (Some (Frame Sample.header
                      [Sample.observation "Kenya" 2015 (Finite 55);
                       Row Blank 2016 (λ _, Finite 40)])) 0 0 5) =
    ([PageConfig "Electrification Forecast Dashboard" "wide";
      Title "Electrification Forecasting Dashboard";
      Markdown description;
      FileUploader "Upload electrification dataset (CSV)";
      SidebarHeader "Controls"],
     Halted (Raised TypeError)).
Proof.
  apply (@run_with_unsortable_countries _ Sample.ascii_only
           Sample.persistence Sample.read_csv
           (Session (Some (Frame Sample.header
                             [Sample.observation "Kenya" 2015 (Finite 55);
                              Row Blank 2016 (λ _, Finite 40)])) 0 0 5)
           (Frame Sample.header
              [Sample.observation "Kenya" 2015 (Finite 55);
               Row Blank 2016 (λ _, Finite 40)])
           (Frame Sample.loaded_header
              [Sample.observation "Kenya" 2015 (Finite 55);
               Row Blank 2016 (λ _, Finite 40)]));
    [reflexivity..|discriminate].
Defined.

Lemma run_with_file_raises_witness :
  ∃ e, ending (@run _ Sample.ascii_only Sample.persistence Sample.read_csv
                 (Session (Some Sample.mixed) 1 2 9)) = inl (Raised e)
    ∧ ∀ body, Error body ∉ page (@run _ Sample.ascii_only Sample.persistence
                                   Sample.read_csv
                                   (Session (Some Sample.mixed) 1 2 9)).
Proof.
  by apply (@run_with_file_raises _ Sample.ascii_only Sample.persistence
              Sample.read_csv (Session (Some Sample.mixed) 1 2 9) Sample.mixed).
Defined.

(** ** Country list and per-country tables *)





(** The table of a selection keeps the header and holds exactly the rows
    of the dataset whose country is the selected one, a blank never
    being equal to the selection; with nothing selected it is empty. *)
Theorem country_df_holds_selected_rows df selected_country cdf :
  country_df df selected_country = Ok cdf →
  columns cdf = columns df
  ∧ (∀ r, r ∈ rows cdf ↔
       r ∈ rows df ∧ Some (country r) = selected_country ∧ country r ≠ Blank)
  ∧ (length (rows cdf) ≤ length (rows df))%nat
  ∧ (selected_country = None → rows cdf = []).
Proof.
  intros [Hcols Hrows]%country_df_rows. rewrite Hrows.
  split_and!; [done| | |].
  - intros r. rewrite sort_by_year_Permutation, list_elem_of_filter.
    unfold is_selected. tauto.
  - rewrite sort_by_year_Permutation. apply length_filter.
  - intros ->.
    assert (filter (is_selected None) (rows df) = []) as ->; [|done].
    clear. induction (rows df) as [|r l IH]; [done|].
    by rewrite filter_cons_False by (by intros [? ?]).
Qed.

Lemma country_df_holds_selected_rows_witness :
  let cdf := Frame Sample.loaded_header
               [Sample.observation "Ghana" 2015 (Finite 70);
                Sample.observation "Ghana" 2017 NaN] in
  columns cdf = columns Sample.mixed
  ∧ (∀ r, r ∈ rows cdf ↔
       r ∈ rows Sample.mixed ∧ Some (country r) = Some (Name "Ghana")
       ∧ country r ≠ Blank)
  ∧ (length (rows cdf) ≤ length (rows Sample.mixed))%nat
  ∧ (Some (Name "Ghana") = None → rows cdf = []).
Proof.
  intros cdf.
  by apply (country_df_holds_selected_rows Sample.mixed
              (Some (Name "Ghana")) cdf).
Defined.




(** The series of a selection has one entry per row of the selected
    country, blank cells included, each entry pairing the row's year with
    its cell; the six-observation test of line 135 therefore counts rows,
    not values. *)
Theorem series_has_one_entry_per_row df selected_country cdf a s :
  country_df df selected_country = Ok cdf →
  series cdf a = Ok s →
  length s = length (filter (is_selected selected_country) (rows df))
  ∧ s = (λ r, (year r, access r a)) <$> rows cdf
  ∧ Sorted Z.le s.*1.
Proof.
  intros Hcdf Hs.
  pose proof (series_of_country_df_sorted _ _ _ _ _ Hcdf Hs) as Hsorted.
  apply country_df_rows in Hcdf as [_ Hrows].
  unfold series, getitem in Hs. repeat case_decide; try done.
  injection Hs as <-. split_and!; [|done..].
  by rewrite length_fmap, Hrows, sort_by_year_Permutation.
Qed.

Lemma series_has_one_entry_per_row_witness :
  let s := [(2015, Finite 70); (2017, NaN)] in
  length s
  = length (filter (is_selected (Some (Name "Ghana"))) (rows Sample.mixed))
  ∧ s = (λ r, (year r, access r electricity_access))
          <$> [Sample.observation "Ghana" 2015 (Finite 70);
               Sample.observation "Ghana" 2017 NaN]
  ∧ Sorted Z.le s.*1.
Proof.
  intros s.
  by apply (series_has_one_entry_per_row Sample.mixed (Some (Name "Ghana"))
              (Frame Sample.loaded_header
                 [Sample.observation "Ghana" 2015 (Finite 70);
                  Sample.observation "Ghana" 2017 NaN])
              electricity_access s).
Defined.

(** ** Forecast years and banner *)

Lemma forecast_year_index_Ok (s : Series) N :
  s ≠ [] → ∃ years, forecast_year_index integer s N = Ok years.
Proof.
  intros Hne. unfold forecast_year_index, index_max.
  destruct s as [|[y v] s]; [done|]. csimpl. by eexists.
Qed.

Lemma forecast_year_index_floating (s : Series) N :
  forecast_year_index floating s N = Err TypeError.
Proof. unfold forecast_year_index, index_max. by destruct s.*1. Qed.

(** On an integer year index whose latest year and horizon stay within
    int64, the forecast years start right after the latest observed
    year, whatever the order of the series, so no forecast year is an
    observed one, and a horizon of zero or less gives no year; an empty
    series gives [TypeError], and so does a float year index. *)
Theorem forecast_years_follow_observed (s : Series) N :
  (s = [] → ∀ index_dtype, forecast_year_index index_dtype s N = Err TypeError)
  ∧ forecast_year_index floating s N = Err TypeError
  ∧ (s ≠ [] →
     ∃ latest,
       index_max s = Ok latest
       ∧ latest ∈ s.*1
       ∧ (- 2 ^ 63 ≤ latest + 1 < 2 ^ 63 →
          - 2 ^ 63 ≤ latest + 1 + N < 2 ^ 63 →
          forecast_year_index integer s N = Ok (seqZ (latest + 1) N)
          ∧ (∀ y observed,
               y ∈ seqZ (latest + 1) N → observed ∈ s.*1 → observed < y)
          ∧ (N ≤ 0 → forecast_year_index integer s N = Ok []))).
Proof.
  split_and!.
  - by intros -> [].
  - apply forecast_year_index_floating.
  - intros Hne. unfold forecast_year_index, index_max.
    destruct s as [|[y v] s]; [done|]. csimpl.
    destruct (foldr_max_spec y s.*1) as [Hin Hall].
    exists (foldr Z.max y s.*1). split_and!; [done..|].
    intros Hstart Hstop. unfold py_range.
    rewrite !wrap64_id by done.
    replace (foldr Z.max y s.*1 + 1 + N - (foldr Z.max y s.*1 + 1))
      with N by lia.
    split_and!; [done| |by intros HN; rewrite seqZ_nil].
    intros y' observed Hy' Hobs. apply elem_of_seqZ in Hy'.
    rewrite Forall_forall in Hall. specialize (Hall observed Hobs). lia.
Qed.

Lemma forecast_years_follow_observed_witness :
  ∃ latest,
    index_max [(2020, Finite 70); (2022, NaN); (2019, Finite 67)] = Ok latest
    ∧ latest ∈ [2020; 2022; 2019]
    ∧ (- 2 ^ 63 ≤ latest + 1 < 2 ^ 63 →
       - 2 ^ 63 ≤ latest + 1 + 3 < 2 ^ 63 →
       forecast_year_index integer
         [(2020, Finite 70); (2022, NaN); (2019, Finite 67)] 3
       = Ok (seqZ (latest + 1) 3)
       ∧ (∀ y observed,
            y ∈ seqZ (latest + 1) 3 → observed ∈ [2020; 2022; 2019] →
            observed < y)
       ∧ (3 ≤ 0 →
          forecast_year_index integer
            [(2020, Finite 70); (2022, NaN); (2019, Finite 67)] 3 = Ok [])).
Proof.
  by apply (forecast_years_follow_observed
              [(2020, Finite 70); (2022, NaN); (2019, Finite 67)] 3).
Defined.

(** The banner step fails with [IndexError], and with nothing else,
    exactly when the series or the forecast is empty; otherwise it gives
    a warning or a success banner. *)
Theorem recommendation_fails_only_on_empty
  selected_country (s : Series) (fc : list float64) :
  (recommendation selected_country s fc = Err IndexError ↔ s = [] ∨ fc = [])
  ∧ (∀ e, recommendation selected_country s fc = Err e → e = IndexError)
  ∧ (s ≠ [] → fc ≠ [] →
     ∃ body, recommendation selected_country s fc = Ok (Warning body)
           ∨ recommendation selected_country s fc = Ok (Success body)).
Proof.
  split_and!.
  - unfold recommendation, iloc_last.
    destruct (last s.*2) as [latest|] eqn:Hs; simpl.
    + destruct (last fc) as [v|] eqn:Hfc; simpl.
      * split; [done|]. intros [->| ->]; done.
      * split; [|done]. intros _. right. by apply last_None.
    + split; [|done]. intros _. left.
      apply last_None in Hs. by apply fmap_nil_inv in Hs.
  - intros e. unfold recommendation, iloc_last.
    destruct (last s.*2); simpl; [|by intros [= <-]].
    destruct (last fc); simpl; [done|by intros [= <-]].
  - intros Hs Hfc.
    destruct (recommendation selected_country s fc) as [banner|e] eqn:Hr.
    + apply recommendation_banner in Hr as [body [-> | ->]]; eauto.
    + revert Hr. unfold recommendation, iloc_last.
      destruct (last s.*2) as [latest|] eqn:Hl; simpl.
      * destruct (last fc) as [v|] eqn:Hv; simpl; [done|].
        by apply last_None in Hv.
      * by apply last_None, fmap_nil_inv in Hl.
Qed.

Lemma recommendation_fails_only_on_empty_witness :
  ∃ body,
    recommendation (Some (Name "Kenya")) [(2022, Finite 75)]
      [Value (Finite 80); Value (Finite 91)] = Ok (Warning body)
    ∨ recommendation (Some (Name "Kenya")) [(2022, Finite 75)]
        [Value (Finite 80); Value (Finite 91)] = Ok (Success body).
Proof.
  by apply (recommendation_fails_only_on_empty (Some (Name "Kenya"))
              [(2022, Finite 75)] [Value (Finite 80); Value (Finite 91)]).
Defined.

Lemma round_half_even_below_900 (x : Q) :
  (1799 # 2 <= x)%Q → (x < 900)%Q → round_half_even x = 900.
Proof.
  intros Hlo Hhi.
  pose proof (Qfloor_le x) as Hfl. pose proof (Qlt_floor x) as Hfu.
  assert (Qfloor x = 899) as Hf.
  { assert (Qfloor x < 900).
    { rewrite Zlt_Qlt. eapply Qle_lt_trans; [exact Hfl|]. exact Hhi. }
    assert (899 < Qfloor x + 1).
    { rewrite Zlt_Qlt. eapply Qlt_trans; [|exact Hfu].
      eapply Qlt_le_trans; [|exact Hlo]. reflexivity. }
    lia. }
  unfold round_half_even. rewrite Hf.
  destruct (x - inject_Z 899 ?= 1 # 2)%Q eqn:Hc; [done| |done].
  apply Qlt_alt in Hc. change (inject_Z 899) with 899%Q in Hc. lra.
Qed.

(** A forecast from 89.95 up to, but not reaching, 90 is below the
    threshold and is shown rounded: the warning reads 90.0%. *)
Theorem warning_can_read_ninety (c : string) (q : Q) :
  (8995 # 100 <= q)%Q → (q < 90)%Q →
  planning_insight (Some (Name c)) (Finite q)
  = Warning (" " +:+ c
       +:+ " is projected to remain below universal access (90.0%). Accelerated investment is recommended.").
Proof.
  intros Hlo Hhi. unfold planning_insight, below.
  rewrite (proj2 (float_lt_Finite q 90) Hhi).
  assert (tenths q = 900) as Ht.
  { unfold tenths. apply round_half_even_below_900.
    - rewrite Qabs_pos by lra. lra.
    - rewrite Qabs_pos by lra. lra. }
  unfold format_float64, format_1f. rewrite Ht.
  destruct (Qlt_le_dec q 0) as [Hneg|_]; [lra|]. done.
Qed.

Lemma warning_can_read_ninety_witness :
  planning_insight (Some (Name "Kenya")) (Finite (8997 # 100))
  = Warning " Kenya is projected to remain below universal access (90.0%). Accelerated investment is recommended.".
Proof.
  apply (warning_can_read_ninety "Kenya" (8997 # 100));
    [discriminate|reflexivity].
Defined.

(** ** The forecasting section under the script's own names *)

Lemma ax_plot_Ok x y label linestyle marker :
  length x = length y →
  ax_plot x y label linestyle marker = Ok (Line x y label linestyle marker).
Proof. intros Hlen. unfold ax_plot. by rewrite decide_True. Qed.

Section section_forecasting.
Context `{ForecastEngine}.

(** With fewer than six entries the section shows its heading and the
    error banner and stops, for every estimator: none is consulted. *)
Theorem forecasting_short_series cdf selected_country a N s :
  series cdf a = Ok s →
  (length s < 6)%nat →
  forecasting imports cdf selected_country a N =
    ([Header " Forecasting Future Electrification";
      Error "Not enough data points for forecasting."],
     Halted Stopped).
Proof.
  intros Hs Hshort. unfold forecasting. emits.
  rewrite Hs, lift_then, decide_True by done. by emits.
Qed.

(** With six entries or more the section shows its heading, fits the
    model with order (1, 1, 1), asks it for the forecast and then ends in
    an exception: the fit's or the forecast's own if one of them fails,
    [TypeError] from [range] on a float year index, [NameError] for
    [plt] otherwise. *)
Theorem forecasting_long_series cdf selected_country a N s :
  series cdf a = Ok s →
  (6 ≤ length s)%nat →
  forecasting imports cdf selected_country a N =
    ([Header " Forecasting Future Electrification"],
     Halted (Raised match ARIMA_fit s (1, 1, 1)%nat with
                    | Err e => e
                    | Ok fit =>
                        match forecast fit N with
                        | Err e => e
                        | Ok _ =>
                            match year_dtype cdf with
                            | floating => TypeError
                            | integer => NameError "plt"
                            end
                        end
                    end)).
Proof.
  intros Hs Hlong. unfold forecasting. emits.
  rewrite Hs, lift_then, decide_False by lia.
  rewrite name_then by elem_of_header.
  destruct (ARIMA_fit s (1, 1, 1)%nat) as [fit|e]; [|done].
  rewrite lift_then.
  destruct (forecast fit N) as [fc|e]; [|done].
  rewrite lift_then.
  destruct (year_dtype cdf).
  - destruct (forecast_year_index_Ok s N) as [years ->].
    { intros ->. simpl in Hlong. lia. }
    rewrite lift_then.
    by rewrite name_unbound by (by apply not_elem_of_imports).
  - by rewrite forecast_year_index_floating.
Qed.

(** With [st], [ARIMA] and [plt] bound, six entries or more, a fit and a
    forecast that succeed and a forecast as long as the year index, the
    section runs to its last line: the chart holds the observed series
    and, dashed, the forecast against the year index, and the banner is
    the one of the last forecast value. *)
Theorem forecasting_full_page G cdf selected_country a N s fit fc years v :
  "st" ∈ G → "ARIMA" ∈ G → "plt" ∈ G →
  series cdf a = Ok s →
  (6 ≤ length s)%nat →
  ARIMA_fit s (1, 1, 1)%nat = Ok fit →
  forecast fit N = Ok fc →
  forecast_year_index (year_dtype cdf) s N = Ok years →
  length years = length fc →
  last fc = Some v →
  forecasting G cdf selected_country a N =
    ([Header " Forecasting Future Electrification";
      Pyplot (LineChart
        [Line s.*1 (Value <$> s.*2) (Some "Historical") "-" None;
         Line years fc (Some "Forecast") "--" None]
        "Year" "Access (%)"
        (str selected_country +:+ " – Electrification Forecast") true);
      Markdown forecast_explanation;
      Header " Model Summary";
      Text (summary fit);
      Header "Planning Insights";
      planning_insight selected_country v;
      Markdown suggested_actions;
      Caption
        "Kubeflow Electrification Project | Streamlit Dashboard | AI-assisted planning"],
     Continue ()).
Proof.
  intros Hst HARIMA Hplt Hs Hlong Hfit Hfc Hyears Hlen Hv.
  unfold forecasting. apply st_then; [done|].
  rewrite Hs, lift_then, decide_False by lia.
  rewrite name_then, Hfit, lift_then, Hfc, lift_then, Hyears, lift_then by done.
  rewrite name_then by done.
  rewrite (ax_plot_Ok s.*1) by (by rewrite !length_fmap).
  rewrite lift_then, (ax_plot_Ok years), lift_then by done.
  do 5 (apply st_then; [done|]).
  assert (recommendation selected_country s fc
          = Ok (planning_insight selected_country v)) as ->.
  { unfold recommendation, iloc_last. rewrite Hv.
    destruct (last s.*2) as [latest|] eqn:Hl; [done|].
    apply last_None, fmap_nil_inv in Hl. subst s. simpl in Hlong. lia. }
  rewrite lift_then.
  do 2 (apply st_then; [done|]).
  unfold st. rewrite name_then by done. done.
Qed.

End section_forecasting.

Lemma forecasting_full_page_witness :
  @forecasting Sample.persistence ("plt" :: "sns" :: imports) Sample.kenya
    (Some (Name "Kenya")) electricity_access 5 =
    ([Header " Forecasting Future Electrification";
      Pyplot (LineChart
        [Line [2015; 2016; 2017; 2018; 2019; 2020; 2021; 2022]
           [Value (Finite 55); Value (Finite 58); Value (Finite 61);
            Value (Finite 64); Value (Finite 67); Value (Finite 70);
            Value (Finite 73); Value (Finite 75)]
           (Some "Historical") "-" None;
         Line [2023; 2024; 2025; 2026; 2027]
           (replicate 5 (Value (Finite 75))) (Some "Forecast") "--" None]
        "Year" "Access (%)" "Kenya – Electrification Forecast" true);
      Markdown forecast_explanation;
      Header " Model Summary";
      Text "persistence";
      Header "Planning Insights";
      Warning " Kenya is projected to remain below universal access (75.0%). Accelerated investment is recommended.";
      Markdown suggested_actions;
      Caption
        "Kubeflow Electrification Project | Streamlit Dashboard | AI-assisted planning"],
     Continue ()).
Proof.
  assert (6 ≤ length Sample.kenya_rows)%nat as Hlong by (simpl; lia).
  exact (@forecasting_full_page Sample.persistence
           ("plt" :: "sns" :: imports) Sample.kenya (Some (Name "Kenya"))
           electricity_access 5
           ((λ r, (year r, access r electricity_access)) <$> Sample.kenya_rows)
           (Finite 75) (replicate 5 (Value (Finite 75)))
           [2023; 2024; 2025; 2026; 2027] (Value (Finite 75))
           ltac:(elem_of_header) ltac:(elem_of_header) ltac:(elem_of_header)
           eq_refl Hlong eq_refl eq_refl eq_refl eq_refl eq_refl).
Defined.

Lemma forecasting_short_series_witness :
  @forecasting Sample.persistence imports
    (Frame Sample.loaded_header Sample.short_rows) (Some (Name "Kenya"))
    electricity_access 5 =
    ([Header " Forecasting Future Electrification";
      Error "Not enough data points for forecasting."],
     Halted Stopped).
Proof.
  apply (@forecasting_short_series Sample.persistence
           (Frame Sample.loaded_header Sample.short_rows)
           (Some (Name "Kenya")) electricity_access 5
           ((λ r, (year r, access r electricity_access)) <$> Sample.short_rows));
    [reflexivity|simpl; lia].
Defined.

Lemma forecasting_long_series_witness :
  @forecasting Sample.persistence imports Sample.kenya (Some (Name "Kenya"))
    electricity_access 5 =
    ([Header " Forecasting Future Electrification"],
     Halted (Raised (NameError "plt"))).
Proof.
  assert (6 ≤ length Sample.kenya_rows)%nat as Hlong by (simpl; lia).
  exact (@forecasting_long_series Sample.persistence Sample.kenya
           (Some (Name "Kenya")) electricity_access 5
           ((λ r, (year r, access r electricity_access)) <$> Sample.kenya_rows)
           eq_refl Hlong).
Defined.

(** ** Shape of the heat map matrix *)

Global Instance key_le_trans : Transitive key_le.
Proof.
  intros [c1 y1] [c2 y2] [c3 y3] [H12 Hy12] [H23 Hy23]. simpl in *.
  split; [by etrans|]. simpl. intros ->.
  assert (c2 = c3) as -> by (by apply (anti_symm place_le)).
  specialize (Hy12 eq_refl). specialize (Hy23 eq_refl). lia.
Qed.

Global Instance key_le_total : Total key_le.
Proof.
  intros [c1 y1] [c2 y2]. unfold key_le. simpl.
  destruct (decide (c1 = c2)) as [->|Hne].
  - assert (place_le c2 c2) by (by destruct (total place_le c2 c2)).
    destruct (Z.le_ge_cases y1 y2); [left|right]; split; simpl; (done || lia).
  - destruct (total place_le c1 c2); [left|right]; by split.
Qed.

Lemma StronglySorted_filter {A} (R : relation A) (P : A → Prop)
  `{∀ x, Decision (P x)} l :
  StronglySorted R l → StronglySorted R (filter P l).
Proof.
  induction 1 as [|x l Hl IH Hx]; [constructor|].
  destruct (decide (P x)).
  - rewrite filter_cons_True by done. constructor; [done|].
    rewrite Forall_forall in Hx. apply Forall_forall.
    intros y [_ Hy]%list_elem_of_filter. by apply Hx.
  - by rewrite filter_cons_False.
Qed.

Lemma StronglySorted_unique_go `{EqDecision A} (R : relation A) seen l :
  StronglySorted R l → StronglySorted R (unique_go seen l).
Proof.
  intros Hl. revert seen. induction Hl as [|x l Hl IH Hx]; intros seen; simpl.
  - constructor.
  - destruct (decide (x ∈ seen)); [apply IH|].
    constructor; [apply IH|].
    rewrite Forall_forall in Hx. apply Forall_forall.
    intros y [Hy _]%elem_of_unique_go. by apply Hx.
Qed.

(** The matrix has its countries in ascending order and its years in
    ascending order, each label once and none of them blank; it has one
    row of cells per country and one cell per year in every row; and
    every country and every year it shows has at least one value. *)
Theorem pivot_table_shape df a p :
  pivot_table df a = Ok p →
  Sorted place_le (index p) ∧ NoDup (index p)
  ∧ Sorted Z.le (pcolumns p) ∧ NoDup (pcolumns p)
  ∧ length (values p) = length (index p)
  ∧ Forall (λ cells, length cells = length (pcolumns p)) (values p)
  ∧ (∀ c, c ∈ index p → ∃ y q, y ∈ pcolumns p ∧ loc p c y = Some (Finite q))
  ∧ (∀ y, y ∈ pcolumns p → ∃ c q, c ∈ index p ∧ loc p c y = Some (Finite q))
  ∧ Blank ∉ index p.
Proof.
  intros ->%pivot_table_inv.
  assert (∀ c y, c ≠ Blank → finite_values (group a (rows df) (c, y)) ≠ [] →
            c ∈ index (unstack (group_means a (rows df)))
            ∧ y ∈ pcolumns (unstack (group_means a (rows df)))
            ∧ ∃ q, loc (unstack (group_means a (rows df))) c y
                   = Some (Finite q)) as Hcell.
  { intros c y Hnamed Hne.
    assert (c ∈ index (unstack (group_means a (rows df)))) as Hc
      by (apply elem_of_index; eauto).
    assert (y ∈ pcolumns (unstack (group_means a (rows df)))) as Hy
      by (apply elem_of_pcolumns; eauto).
    split_and!; [done..|]. rewrite loc_unstack by done.
    destruct (mean _) as [q|] eqn:Hm; [by exists q|]. by apply mean_NaN in Hm. }
  split_and!.
  - apply StronglySorted_Sorted. simpl.
    apply StronglySorted_unique_go.
    unfold group_means.
    apply (StronglySorted_fmap _ (λ kv kv' : place * Z * float,
                                    key_le kv.1 kv'.1));
      [by intros ?? []|].
    apply StronglySorted_filter.
    apply (StronglySorted_fmap _ key_le); [done|].
    apply (StronglySorted_merge_sort key_le).
  - apply NoDup_unique.
  - apply (Sorted_merge_sort Z.le).
  - simpl. rewrite merge_sort_Permutation. apply NoDup_unique.
  - simpl. by rewrite length_fmap.
  - simpl. apply Forall_fmap, Forall_true. intros c. simpl.
    by rewrite length_fmap.
  - intros c [Hnamed [y Hne]]%elem_of_index.
    destruct (Hcell c y Hnamed Hne) as (_ & ? & q & ?). by exists y, q.
  - intros y (c & Hnamed & Hne)%elem_of_pcolumns.
    destruct (Hcell c y Hnamed Hne) as (? & _ & q & ?). by exists c, q.
  - by intros [? _]%elem_of_index.
Qed.

Lemma pivot_table_shape_witness :
  let p := Pivot [Name "Ghana"; Name "Kenya"] [2015; 2016]
             [[Finite 70; NaN]; [Finite (112 # 2); Finite 60]] in
  Sorted place_le (index p) ∧ NoDup (index p)
  ∧ Sorted Z.le (pcolumns p) ∧ NoDup (pcolumns p)
  ∧ length (values p) = length (index p)
  ∧ Forall (λ cells, length cells = length (pcolumns p)) (values p)
  ∧ (∀ c, c ∈ index p → ∃ y q, y ∈ pcolumns p ∧ loc p c y = Some (Finite q))
  ∧ (∀ y, y ∈ pcolumns p → ∃ c q, c ∈ index p ∧ loc p c y = Some (Finite q))
  ∧ Blank ∉ index p.
Proof.
  intros p.
  by apply (pivot_table_shape Sample.mixed electricity_access p).
Defined.

(** Where a (country, year) pair has a single row, and that row has a
    value, the cell shows that value; when the row's country is blank
    the matrix has no such cell. *)
Theorem pivot_table_single_row df a r q :
  access_name a ∈ columns df → "country" ∈ columns df → "year" ∈ columns df →
  filter (λ r', (country r', year r') = (country r, year r)) (rows df) = [r] →
  access r a = Finite q →
  ∃ p, pivot_table df a = Ok p
    ∧ (country r ≠ Blank →
       ∃ shown, loc p (country r) (year r) = Some (Finite shown) ∧ shown == q)
    ∧ (country r = Blank → loc p (country r) (year r) = None).
Proof.
  intros Ha Hc Hy Hone Hq.
  assert (group a (rows df) (country r, year r) = [Finite q]) as Hgroup
    by (unfold group; by rewrite Hone, <- Hq).
  eexists. split; [by apply pivot_table_Ok|]. split.
  - intros Hnamed. eexists. rewrite loc_unstack.
    + rewrite Hgroup. split; [reflexivity|]. simpl. field.
    + apply elem_of_index. split; [done|]. exists (year r). by rewrite Hgroup.
    + apply elem_of_pcolumns. exists (country r). by rewrite Hgroup.
  - intros ->. unfold loc.
    destruct (list_find (Blank =.) _) as [[i c]|] eqn:Hfind; [|done].
    apply list_find_Some in Hfind as (Hi & <- & _).
    by apply list_elem_of_lookup_2, elem_of_index in Hi as [? _].
Qed.

Lemma pivot_table_single_row_witness :
  ∃ p shown, pivot_table Sample.mixed electricity_access = Ok p
    ∧ loc p (Name "Kenya") 2016 = Some (Finite shown)
    ∧ shown == 60.
Proof.
  destruct (pivot_table_single_row Sample.mixed electricity_access
              (Sample.observation "Kenya" 2016 (Finite 60)) 60)
    as (p & Hp & Hnamed & _); [elem_of_header..|reflexivity|reflexivity|].
  destruct Hnamed as (shown & Hloc & Hq); [done|]. by exists p, shown.
Defined.

(** ** What no run of the script as written shows *)

(** Every run opens with the page configuration, the title, the
    description and the uploader, and no run shows a chart, a model
    summary, a success or error banner, or the footer. *)
Theorem run_never_draws {File : Type} `{Python} `{ForecastEngine}
  (read_csv : File → result DataFrame) (u : session File) :
  (∃ rest,
     page (run read_csv u) =
       [PageConfig "Electrification Forecast Dashboard" "wide";
        Title "Electrification Forecasting Dashboard";
        Markdown description;
        FileUploader "Upload electrification dataset (CSV)"] ++ rest)
  ∧ Forall (λ e, match e with
                 | Pyplot _ | Text _ | Success _ | Error _ | Caption _ => False
                 | _ => True
                 end) (page (run read_csv u)).
Proof.
  unfold run, run_with.
  rewrite !page_st by elem_of_header.
  destruct (uploaded_file u) as [file|].
  2:{ split; [by eexists|]. by repeat constructor. }
  rewrite page_name by elem_of_header.
  destruct (load_data read_csv file) as [df|e].
  2:{ split; [by eexists|]. by repeat constructor. }
  rewrite page_lift, page_st by elem_of_header.
  destruct (countries df) as [cs|e].
  2:{ split; [by eexists|]. by repeat constructor. }
  rewrite page_lift, !page_st by elem_of_header.
  destruct (country_df df _) as [cdf|e].
  2:{ split; [by eexists|]. by repeat constructor. }
  rewrite page_lift. unfold trends.
  rewrite !bind_assoc, page_st by elem_of_header.
  rewrite name_unbound by (by apply not_elem_of_imports).
  split; [by eexists|]. by repeat constructor.
Qed.

(** ** Files already in year order *)


